(** * losb-back: the API views of [losb/api/v1/views.py]

    A shallow embedding of the request handlers of the Telegram-bot
    backend and of the [Phone] table of migration [0001_initial], with
    the properties of the design specification stated against them.

    Handlers are functions from the request and the state they touch to
    an [outcome] (a value, or the Python exception that leaves the
    handler) paired with the state after the call. *)

From Stdlib Require Import ZArith List String Ascii Bool Lia.
Import ListNotations.

Set Warnings "-register-all".

Local Open Scope string_scope.
Local Open Scope Z_scope.
Local Open Scope list_scope.

(* ------------------------------------------------------------------ *)
(** ** Exceptions and outcomes *)

(** The exceptions that can leave the handlers.  [APIError]s are the
    classes of [losb.api.v1.exceptions]; the others are Python's and
    Django's own. *)
Inductive exn : Type :=
| KeyError (key : string)
| TypeError
| AttributeError
| IndexError
| TimestampOutOfRange          (* ValueError / OverflowError of fromtimestamp *)
| MultipleObjectsReturned
| DataError                    (* the database refuses a value *)
| ValidationError
| BirthdayAlreadyRegistered
| SmsDeliveryError (detail : string)
| NoPendingVerification
| CodeMismatch.

Inductive outcome (A : Type) : Type :=
| Ok (a : A)
| Raise (e : exn).

Arguments Ok {A} a.
Arguments Raise {A} e.

Definition bind {A B : Type} (m : outcome A) (k : A -> outcome B) : outcome B :=
  match m with
  | Ok a => k a
  | Raise e => Raise e
  end.

Notation "x <- m ;; k" := (bind m (fun x => k))
  (at level 61, m at next level, right associativity).

Definition returned {A : Type} (m : outcome A) : bool :=
  match m with Ok _ => true | Raise _ => false end.

(* ------------------------------------------------------------------ *)
(** ** Request payloads

    [request.data] of a JSON request is the parsed document: any JSON
    value, not only an object.  Numbers are the integral ones. *)

Inductive json : Type :=
| JNull
| JBool (b : bool)
| JNum (n : Z)
| JStr (s : string)
| JArr (items : list json)
| JObj (fields : list (string * json)).

Fixpoint json_eqb (a b : json) {struct a} : bool :=
  match a, b with
  | JNull, JNull => true
  | JBool x, JBool y => Bool.eqb x y
  | JNum x, JNum y => Z.eqb x y
  | JStr x, JStr y => String.eqb x y
  | JArr xs, JArr ys =>
      (fix items_eqb (l : list json) (r : list json) {struct l} : bool :=
         match l, r with
         | [], [] => true
         | x :: l', y :: r' => json_eqb x y && items_eqb l' r'
         | _, _ => false
         end) xs ys
  | JObj xs, JObj ys =>
      (fix fields_eqb (l : list (string * json)) (r : list (string * json))
           {struct l} : bool :=
         match l, r with
         | [], [] => true
         | (k, x) :: l', (k', y) :: r' =>
             String.eqb k k' && json_eqb x y && fields_eqb l' r'
         | _, _ => false
         end) xs ys
  | _, _ => false
  end.

(** A Python [dict] with string keys, as the association list of its
    items; a key is looked up at its first occurrence. *)
Fixpoint assoc (key : string) (fields : list (string * json)) : option json :=
  match fields with
  | [] => None
  | (k, v) :: rest => if String.eqb key k then Some v else assoc key rest
  end.

Definition is_substring (needle hay : string) : bool :=
  match String.index 0 needle hay with
  | Some _ => true
  | None => false
  end.

(** [key in v] *)
Definition py_in (key : string) (v : json) : outcome bool :=
  match v with
  | JObj fields =>
      Ok (match assoc key fields with Some _ => true | None => false end)
  | JArr items => Ok (existsb (json_eqb (JStr key)) items)
  | JStr s => Ok (is_substring key s)
  | JNull | JBool _ | JNum _ => Raise TypeError
  end.

(** [v[key]] for a string [key] *)
Definition py_getitem (v : json) (key : string) : outcome json :=
  match v with
  | JObj fields =>
      match assoc key fields with
      | Some x => Ok x
      | None => Raise (KeyError key)
      end
  | _ => Raise TypeError
  end.

(** [v.get(key, default)] *)
Definition py_get (v : json) (key : string) (default : json) : outcome json :=
  match v with
  | JObj fields =>
      Ok (match assoc key fields with Some x => x | None => default end)
  | _ => Raise AttributeError
  end.

(* ------------------------------------------------------------------ *)
(** ** Aware datetimes

    [datetime.fromtimestamp(t, tz=timezone.utc)] is the calendar
    reading, in UTC, of the instant [t] seconds after the epoch
    1970-01-01T00:00:00Z, in the proleptic Gregorian calendar. *)

Inductive timezone : Type := UTC.

Record datetime : Type := mkDatetime {
  year : Z;
  month : Z;
  day : Z;
  hour : Z;
  minute : Z;
  second : Z;
  tzinfo : timezone
}.

(** Days are counted in eras of 400 years (146097 days) that start on a
    1 March; [doe] is the day of the era. *)
Definition DAYS_PER_ERA : Z := 146097.
Definition EPOCH_SHIFT : Z := 719468.      (* 0000-03-01 to 1970-01-01 *)

Definition year_of_era (doe : Z) : Z :=
  (doe - doe / 1460 + doe / 36524 - doe / 146096) / 365.

(** The day of the era on which its year [yoe] starts. *)
Definition year_start (yoe : Z) : Z := 365 * yoe + yoe / 4 - yoe / 100.

(** Months are counted from March: [mp] is 0 for March, 11 for
    February; [doy] is the day of the year that starts on 1 March. *)
Definition month_index (doy : Z) : Z := (5 * doy + 2) / 153.

Definition month_of (mp : Z) : Z := if mp <? 10 then mp + 3 else mp - 9.

Definition day_of_month (doy mp : Z) : Z := doy - (153 * mp + 2) / 5 + 1.

Definition year_day (m d : Z) : Z :=
  (153 * (if 2 <? m then m - 3 else m + 9) + 2) / 5 + d - 1.

(** The civil date of the day [z] days after 1970-01-01. *)
Definition civil_from_days (z : Z) : Z * Z * Z :=
  let era := (z + EPOCH_SHIFT) / DAYS_PER_ERA in
  let doe := (z + EPOCH_SHIFT) mod DAYS_PER_ERA in
  let yoe := year_of_era doe in
  let doy := doe - year_start yoe in
  let mp := month_index doy in
  let m := month_of mp in
  (yoe + era * 400 + (if m <=? 2 then 1 else 0), m, day_of_month doy mp).

(** The number of days from 1970-01-01 to the civil date [y]-[m]-[d]. *)
Definition days_from_civil (y m d : Z) : Z :=
  let y := y - (if m <=? 2 then 1 else 0) in
  (y / 400) * DAYS_PER_ERA + year_start (y mod 400) + year_day m d
  - EPOCH_SHIFT.

Definition utcfromtimestamp (t : Z) : datetime :=
  let '(y, m, d) := civil_from_days (t / 86400) in
  let rem := t mod 86400 in
  mkDatetime y m d (rem / 3600) ((rem mod 3600) / 60) (rem mod 60) UTC.

(** [d.timestamp()] of an aware datetime in UTC *)
Definition timestamp (d : datetime) : Z :=
  days_from_civil (year d) (month d) (day d) * 86400
  + hour d * 3600 + minute d * 60 + second d.

(** 0001-01-01T00:00:00Z and 9999-12-31T23:59:59Z: [datetime] has the
    years 1 to 9999. *)
Definition MIN_TIMESTAMP : Z := -62135596800.
Definition MAX_TIMESTAMP : Z := 253402300799.

Definition fromtimestamp (t : json) : outcome datetime :=
  match t with
  | JNum n =>
      if (MIN_TIMESTAMP <=? n) && (n <=? MAX_TIMESTAMP)
      then Ok (utcfromtimestamp n)
      else Raise TimestampOutOfRange
  | JBool b => Ok (utcfromtimestamp (if b then 1 else 0))  (* bool is an int *)
  | JNull | JStr _ | JArr _ | JObj _ => Raise TypeError
  end.

(** A check of [f] on the [2 ^ depth] integers from [lo] on. *)
Fixpoint holds_from (depth : nat) (lo : Z) (f : Z -> bool) : bool :=
  match depth with
  | O => f lo
  | S k => holds_from k lo f && holds_from k (lo + 2 ^ Z.of_nat k) f
  end.

(** The years of an era start where [year_of_era] changes. *)
Definition year_boundary_ok (y : Z) : bool :=
  (400 <=? y)
  || ((year_of_era (year_start y) =? y)
      && ((y =? 0) || (year_of_era (year_start y - 1) =? y - 1))).

(** Within a year: the month and the day are a month and a day of it,
    [year_day] gives the day of the year back, and January and February
    are the days from the 306th on. *)
Definition day_of_year_ok (doy : Z) : bool :=
  (366 <=? doy)
  || (let mp := month_index doy in
      let m := month_of mp in
      let d := day_of_month doy mp in
      (1 <=? m) && (m <=? 12) && (1 <=? d) && (d <=? 31)
      && (year_day m d =? doy)
      && (if doy <? 306 then 2 <? m else m <=? 2)).

Definition digit (n : Z) : ascii := ascii_of_nat (48 + Z.to_nat (n mod 10)).

Definition two_digits (n : Z) : string :=
  String (digit (n / 10)) (String (digit n) "").

(** [d.strftime('%H:%M')] *)
Definition strftime_HM (d : datetime) : string :=
  (two_digits (hour d) ++ ":" ++ two_digits (minute d))%string.

(* ------------------------------------------------------------------ *)
(** ** The MessageLog table *)

(** Modelled from the spec: the [MessageLog] model of [losb.models],
    which [views.py] imports and which is not among the sources.  A row
    holds the chat identifier, the latest message text and the time it
    was sent; the values are kept as the handler passes them. *)
Record MessageLog : Type := mkMessageLog {
  chat_id : json;
  text : json;
  sent_at : datetime
}.

Definition MessageLogTable : Type := list MessageLog.

Definition has_chat (c : json) (row : MessageLog) : bool :=
  json_eqb (chat_id row) c.

(** [MessageLog.objects.filter(chat_id=c)] *)
Definition rows_of (c : json) (table : MessageLogTable) : list MessageLog :=
  filter (has_chat c) table.

Definition set_defaults (c : json) (t : json) (at_ : datetime)
    (row : MessageLog) : MessageLog :=
  if has_chat c row then mkMessageLog (chat_id row) t at_ else row.

(** [MessageLog.objects.update_or_create(chat_id=c, defaults={'text': t,
    'sent_at': at_})]: Django's [get] on the key, then an update of the
    row found or the creation of a new one; [get] refuses several rows. *)
Definition update_or_create (c : json) (t : json) (at_ : datetime)
    (table : MessageLogTable) : outcome unit * MessageLogTable :=
  match rows_of c table with
  | [] => (Ok tt, table ++ [mkMessageLog c t at_])
  | [_] => (Ok tt, map (set_defaults c t at_) table)
  | _ :: _ :: _ => (Raise MultipleObjectsReturned, table)
  end.

(* ------------------------------------------------------------------ *)
(** ** Responses *)

Record Response : Type := mkResponse {
  data : json;
  status : Z
}.

Definition HTTP_200_OK : Z := 200.

Definition status_ok : Response :=
  mkResponse (JObj [("status", JStr "ok")]) 200.

(* ------------------------------------------------------------------ *)
(** ** TelegramWebhookAPIView *)

Module TelegramWebhookAPIView.

(** What the handler reads from an update that has a ['message']. *)
Definition extract (update : json) : outcome (json * json * datetime) :=
  message <- py_getitem update "message" ;;
  chat <- py_getitem message "chat" ;;
  chat_id <- py_getitem chat "id" ;;
  text <- py_get message "text" (JStr "") ;;
  date <- py_getitem message "date" ;;
  timestamp <- fromtimestamp date ;;
  Ok (chat_id, text, timestamp).

Definition post (update : json) (table : MessageLogTable)
    : outcome Response * MessageLogTable :=
  match py_in "message" update with
  | Raise e => (Raise e, table)
  | Ok false => (Ok status_ok, table)
  | Ok true =>
      match extract update with
      | Raise e => (Raise e, table)
      | Ok (chat_id, text, timestamp) =>
          match update_or_create chat_id text timestamp table with
          | (Raise e, table') => (Raise e, table')
          | (Ok _, table') => (Ok status_ok, table')
          end
      end
  end.

(** The table after a sequence of deliveries, oldest first. *)
Fixpoint deliver (updates : list json) (table : MessageLogTable)
    : MessageLogTable :=
  match updates with
  | [] => table
  | u :: rest => deliver rest (snd (post u table))
  end.

(** What a delivery writes: the key and values of its upsert, if the
    handler gets that far. *)
Definition event (update : json) : option (json * json * datetime) :=
  match py_in "message" update with
  | Ok true =>
      match extract update with
      | Ok x => Some x
      | Raise _ => None
      end
  | _ => None
  end.

(** Whether a delivery writes the row of chat [c]. *)
Definition writes (c : json) (update : json) : bool :=
  match event update with
  | Some (c', _, _) => json_eqb c' c
  | None => false
  end.

End TelegramWebhookAPIView.

(** At most one row per chat identifier. *)
Definition unique_chats (table : MessageLogTable) : Prop :=
  forall c, (List.length (rows_of c table) <= 1)%nat.

(* ------------------------------------------------------------------ *)
(** ** Users *)

Record date : Type := mkDate {
  date_year : Z;
  date_month : Z;
  date_day : Z
}.

(** The phone of a user, as the views and the service see it. *)
Record Phone : Type := mkPhone {
  code : Z;
  number : Z
}.

(** [request.user]: the fields of the user the handlers read or write.
    A [date] is always true in a condition, [None] never. *)
Record User : Type := mkUser {
  telegram_id : string;
  name : string;
  birthday : option date;
  phone : option Phone
}.

Definition set_birthday (u : User) (d : date) : User :=
  mkUser (telegram_id u) (name u) (Some d) (phone u).

Definition set_phone (u : User) (p : Phone) : User :=
  mkUser (telegram_id u) (name u) (birthday u) (Some p).

(* ------------------------------------------------------------------ *)
(** ** The OTP generator *)

(** The operating system's entropy that [random.SystemRandom] reads:
    the values its successive draws return, and how many were drawn. *)
Record Entropy : Type := mkEntropy {
  stream : nat -> nat;
  drawn : nat
}.

Definition OTP_ALPHABET : string := "123456789".

(** [SystemRandom().choice(seq)]: one draw, the element at an index
    below [len(seq)]; [IndexError] on an empty sequence. *)
Definition choice (seq : string) (os : Entropy) : outcome ascii * Entropy :=
  match String.get (Nat.modulo (stream os (drawn os)) (String.length seq)) seq with
  | Some c => (Ok c, mkEntropy (stream os) (S (drawn os)))
  | None => (Raise IndexError, os)
  end.

(** ["".join(SystemRandom().choice('123456789') for _ in range(n))] *)
Fixpoint join_choices (n : nat) (os : Entropy) : outcome string * Entropy :=
  match n with
  | O => (Ok EmptyString, os)
  | S n' =>
      match choice OTP_ALPHABET os with
      | (Raise e, os') => (Raise e, os')
      | (Ok c, os') =>
          match join_choices n' os' with
          | (Raise e, os'') => (Raise e, os'')
          | (Ok s, os'') => (Ok (String c s), os'')
          end
      end
  end.

(** [UserPhoneUpdateView.get_otp], with
    [settings.SMS_VERIFICATION_CODE_DIGITS] as its argument; [range] of
    a negative number is empty. *)
Definition get_otp (SMS_VERIFICATION_CODE_DIGITS : Z) (os : Entropy)
    : outcome string * Entropy :=
  join_choices (Z.to_nat SMS_VERIFICATION_CODE_DIGITS) os.

Definition is_nonzero_digit (c : ascii) : bool :=
  (Nat.leb 49 (nat_of_ascii c) && Nat.leb (nat_of_ascii c) 57)%bool.

(* ------------------------------------------------------------------ *)
(** ** The SMS verification service *)

(** The state a phone request works on: the authenticated user and the
    verification pending for that user. *)
Record PendingVerification : Type := mkPending {
  pending_otp : string;
  pending_phone : Phone;
  issued_at : Z
}.

Record Session : Type := mkSession {
  user : User;
  pending : option PendingVerification
}.

(** The two methods of [SmsVerificationService(request.user)] that the
    views call. *)
Record SmsVerificationService : Type := mkService {
  request_verification : Z -> Z -> Session -> outcome string * Session;
  verify_code : string -> Z -> Z -> Session -> outcome unit * Session
}.

Module SmsVerification.

(** What a service instance works with: the configured code length
    and lifetime, the SMS gateway (the cause of a failure, or [None]
    when the message was delivered), the entropy and the clock. *)
Record Env : Type := mkEnv {
  digits : Z;
  ttl : Z;
  send_sms : Phone -> string -> option string;
  entropy : Entropy;
  now : Z
}.

Definition expired (env : Env) (p : PendingVerification) : bool :=
  issued_at p + ttl env <=? now env.

Definition phone_eqb (p q : Phone) : bool :=
  (code p =? code q) && (number p =? number q).

(** Modelled from the spec: [SmsVerificationService.request_verification]
    of [losb.api.v1.services.sms_verification], which is not among the
    sources.  It generates an OTP, has the gateway deliver it to the
    candidate number, fails with the delivery error and its cause when
    delivery fails (nothing is recorded then), and otherwise records
    the pending verification, superseding an earlier one, and returns
    the OTP. *)
Definition spec_request_verification (env : Env) (code number : Z)
    (s : Session) : outcome string * Session :=
  match fst (get_otp (digits env) (entropy env)) with
  | Raise e => (Raise e, s)
  | Ok otp =>
      match send_sms env (mkPhone code number) otp with
      | Some cause => (Raise (SmsDeliveryError cause), s)
      | None =>
          (Ok otp,
           mkSession (user s)
             (Some (mkPending otp (mkPhone code number) (now env))))
      end
  end.

(** Modelled from the spec: [SmsVerificationService.verify_code], not
    among the sources.  It fails with [NoPendingVerification] when the
    user has no pending verification or it has expired, with
    [CodeMismatch] when the submitted OTP or phone differs from what
    was requested, and otherwise stores the phone on the user,
    replacing an earlier one, and clears the pending verification. *)
Definition spec_verify_code (env : Env) (otp : string) (code number : Z)
    (s : Session) : outcome unit * Session :=
  match pending s with
  | None => (Raise NoPendingVerification, s)
  | Some p =>
      if expired env p then (Raise NoPendingVerification, s)
      else if String.eqb otp (pending_otp p)
              && phone_eqb (mkPhone code number) (pending_phone p)
      then (Ok tt, mkSession (set_phone (user s) (mkPhone code number)) None)
      else (Raise CodeMismatch, s)
  end.

Definition service (env : Env) : SmsVerificationService :=
  mkService (spec_request_verification env) (spec_verify_code env).

End SmsVerification.

(* ------------------------------------------------------------------ *)
(** ** The last-message service *)

Record LastMessageInfo : Type := mkInfo {
  message : json;
  time : datetime
}.

(** What the two calls on [WebhookLastMessageService(telegram_id)]
    return: [get_last_message()] a pair of the message info and an
    error, either of which may be [None], and [get_avatar_url()] a URL
    or [None]. *)
Record WebhookLastMessageService : Type := mkLastMessageService {
  get_last_message : option LastMessageInfo * option string;
  get_avatar_url : option string
}.

(** The truth value of an optional string: [None] and [''] are false. *)
Definition truthy (e : option string) : bool :=
  match e with
  | Some (String _ _) => true
  | Some EmptyString | None => false
  end.

Definition json_of_option (s : option string) : json :=
  match s with
  | Some x => JStr x
  | None => JNull
  end.

(* ------------------------------------------------------------------ *)
(** ** UserBirthdayAPIView *)

Module UserBirthdayAPIView.
Section WithSerializers.

(** The serializers of [losb.api.v1.serializers] are not among the
    sources.  [UserBirthdaySerializer] is what [is_valid] accepts: the
    birthday that [update] then stores on the user, or the validation
    error; [UserSerializer] is the representation of a user. *)
Variable UserBirthdaySerializer : json -> outcome date.
Variable UserSerializer : User -> json.

Definition post (request_data : json) (request_user : User)
    : outcome Response * User :=
  match birthday request_user with
  | Some _ => (Raise BirthdayAlreadyRegistered, request_user)
  | None =>
      match UserBirthdaySerializer request_data with
      | Raise e => (Raise e, request_user)
      | Ok validated_data =>
          let request_user := set_birthday request_user validated_data in
          (Ok (mkResponse (UserSerializer request_user) HTTP_200_OK),
           request_user)
      end
  end.

(** The user after a sequence of requests, oldest first. *)
Fixpoint posts (bodies : list json) (u : User) : User :=
  match bodies with
  | [] => u
  | b :: rest => posts rest (snd (post b u))
  end.

End WithSerializers.
End UserBirthdayAPIView.

(* ------------------------------------------------------------------ *)
(** ** UserPhoneUpdateView *)

Module UserPhoneUpdateView.
Section WithSerializers.

(** [UserPhoneSerializer] yields the validated [code] and [number],
    [UserPhoneVerificationSerializer] the validated [otp] and
    [phone.code], [phone.number]; both are absent from the sources. *)
Variable UserPhoneSerializer : json -> outcome (Z * Z).
Variable UserPhoneVerificationSerializer : json -> outcome (string * (Z * Z)).
Variable UserSerializer : User -> json.
Variable service : SmsVerificationService.

Definition post (request_data : json) (s : Session)
    : outcome Response * Session :=
  match UserPhoneSerializer request_data with
  | Raise e => (Raise e, s)
  | Ok (code, number) =>
      match request_verification service code number s with
      | (Raise (SmsDeliveryError e), s') =>
          (Raise (SmsDeliveryError ("Failed to send SMS: " ++ e)%string), s')
      | (Raise e, s') => (Raise e, s')
      | (Ok verification_code, s') =>
          (Ok (mkResponse (JObj [("otp", JStr verification_code)]) HTTP_200_OK),
           s')
      end
  end.

Definition patch (request_data : json) (s : Session)
    : outcome Response * Session :=
  match UserPhoneVerificationSerializer request_data with
  | Raise e => (Raise e, s)
  | Ok (otp, (code, number)) =>
      match verify_code service otp code number s with
      | (Raise e, s') => (Raise e, s')
      | (Ok _, s') =>
          (Ok (mkResponse (UserSerializer (user s')) HTTP_200_OK), s')
      end
  end.

End WithSerializers.
End UserPhoneUpdateView.

(* ------------------------------------------------------------------ *)
(** ** LastMessageAPIView *)

Module LastMessageAPIView.
Section WithService.

(** [WebhookLastMessageService(telegram_id)], of
    [losb.api.v1.services.webhook_last_message_service], is not among
    the sources: the handler is stated for whatever it answers. *)
Variable service_for : string -> WebhookLastMessageService.

Definition get (request_user : User) : Response :=
  let service := service_for (telegram_id request_user) in
  let '(last_message_info, error) := get_last_message service in
  let avatar_url := get_avatar_url service in
  if truthy error
  then mkResponse (JObj [("error", json_of_option error)]) 400
  else
    mkResponse
      (JObj [("avatar_url", json_of_option avatar_url);
             ("message",
              match last_message_info with
              | Some info => message info
              | None => JNull
              end);
             ("time",
              match last_message_info with
              | Some info => JStr (strftime_HM (time info))
              | None => JNull
              end)])
      HTTP_200_OK.

End WithService.
End LastMessageAPIView.

(* ------------------------------------------------------------------ *)
(** ** Migration 0001: the Phone table *)

Module Migration0001.

(** [models.PositiveSmallIntegerField]: the values from 0 to 32767 are
    the ones every database backend of Django stores. *)
Definition PositiveSmallIntegerField (v : Z) : bool :=
  (0 <=? v) && (v <=? 32767).

(** The columns of [Phone]: [id], [code] and [phone] (the number). *)
Record Phone : Type := mkPhone {
  id : Z;
  code : Z;
  phone : Z
}.

Definition next_id (table : list Phone) : Z :=
  1 + fold_right (fun row m => Z.max (id row) m) 0 table.

(** [Phone.objects.create(code=code, phone=number)] *)
Definition create (code number : Z) (table : list Phone)
    : outcome Phone * list Phone :=
  if PositiveSmallIntegerField code && PositiveSmallIntegerField number
  then
    let row := mkPhone (next_id table) code number in
    (Ok row, table ++ [row])
  else (Raise DataError, table).

End Migration0001.

(* ------------------------------------------------------------------ *)
(** ** UserAvatarUpdateView *)

(** The user of the avatar handler: the fields above and the
    [avatar_url] attribute the handler assigns. *)
Record AvatarUser : Type := mkAvatarUser {
  profile : User;
  avatar_url : json
}.

Module UserAvatarUpdateView.
Section WithSerializers.

(** [UserAvatarSerializer] is what [is_valid] leaves in
    [validated_data] for a request validated with [partial=True]: a
    dictionary that holds the fields the request supplied, or the
    validation error.  It is absent from the sources, as is
    [UserSerializer]. *)
Variable UserAvatarSerializer : json -> outcome (list (string * json)).
Variable UserSerializer : AvatarUser -> json.

Definition post (request_data : json) (user : AvatarUser)
    : outcome Response * AvatarUser :=
  match UserAvatarSerializer request_data with
  | Raise e => (Raise e, user)
  | Ok validated_data =>
      match py_getitem (JObj validated_data) "avatar_url" with
      | Raise e => (Raise e, user)
      | Ok url =>
          let user := mkAvatarUser (profile user) url in
          (Ok (mkResponse (UserSerializer user) HTTP_200_OK), user)
      end
  end.

(** The user after a sequence of uploads, oldest first. *)
Fixpoint posts (bodies : list json) (u : AvatarUser) : AvatarUser :=
  match bodies with
  | [] => u
  | b :: rest => posts rest (snd (post b u))
  end.

End WithSerializers.
End UserAvatarUpdateView.

(* ------------------------------------------------------------------ *)
(** ** Sequences of requests *)

(** The birthday of the first body of a sequence that the serializer
    accepts. *)
Fixpoint first_accepted (validate : json -> outcome date)
    (bodies : list json) : option date :=
  match bodies with
  | [] => None
  | b :: rest =>
      match validate b with
      | Ok d => Some d
      | Raise _ => first_accepted validate rest
      end
  end.

(** The avatar URL of the last body of a sequence that the serializer
    accepts with an [avatar_url], or [current] when there is none. *)
Fixpoint last_uploaded (validate : json -> outcome (list (string * json)))
    (bodies : list json) (current : json) : json :=
  match bodies with
  | [] => current
  | b :: rest =>
      last_uploaded validate rest
        (match validate b with
         | Ok validated_data =>
             match assoc "avatar_url" validated_data with
             | Some url => url
             | None => current
             end
         | Raise _ => current
         end)
  end.

(** The Phone table after a sequence of [create] calls, each with a
    code and a number, oldest first. *)
Fixpoint creates (attempts : list (Z * Z)) (table : list Migration0001.Phone)
    : list Migration0001.Phone :=
  match attempts with
  | [] => table
  | (code, number) :: rest =>
      creates rest (snd (Migration0001.create code number table))
  end.

Definition storable (attempt : Z * Z) : bool :=
  Migration0001.PositiveSmallIntegerField (fst attempt)
  && Migration0001.PositiveSmallIntegerField (snd attempt).

(** The draws that make [get_otp] return a given code: the [k]-th draw
    is the position in the alphabet of the [k]-th character. *)
Definition draws_for (otp : string) (k : nat) : nat :=
  match String.get k otp with
  | Some c => nat_of_ascii c - 49
  | None => 0
  end.

(* ------------------------------------------------------------------ *)
(** ** Sample requests *)

(** The update of the specification's example: chat 42 says "hi". *)
Definition update_hi : json :=
  JObj [("update_id", JNum 1);
        ("message",
         JObj [("chat", JObj [("id", JNum 42)]);
               ("text", JStr "hi");
               ("date", JNum 1700000000)])].

(** A later photo message of the same chat, without [text]. *)
Definition update_photo : json :=
  JObj [("message",
         JObj [("chat", JObj [("id", JNum 42)]);
               ("date", JNum 1700000060)])].

(** An update of another kind, without [message]. *)
Definition update_edited : json :=
  JObj [("update_id", JNum 2); ("edited_message", JObj [])].

(** An update whose [message] lacks [chat]. *)
Definition update_no_chat : json :=
  JObj [("message", JObj [("text", JStr "hi"); ("date", JNum 1700000000)])].

Definition alice : User := mkUser "42" "Alice" None None.

Definition phone_body : json := JObj [("code", JNum 7); ("number", JNum 9161)].

Definition verification_body (otp : string) : json :=
  JObj [("otp", JStr otp);
        ("phone", JObj [("code", JNum 7); ("number", JNum 9161)])].

Definition birthday_body : json := JObj [("birthday", JStr "1990-05-17")].

(** Stand-ins for the absent serializers, for the sample requests: they
    accept exactly the bodies above. *)
Definition sample_birthday_serializer (body : json) : outcome date :=
  if json_eqb body birthday_body then Ok (mkDate 1990 5 17)
  else Raise ValidationError.

Definition sample_phone_serializer (body : json) : outcome (Z * Z) :=
  match body with
  | JObj [("code", JNum c); ("number", JNum n)] => Ok (c, n)
  | _ => Raise ValidationError
  end.

Definition sample_verification_serializer (body : json)
    : outcome (string * (Z * Z)) :=
  match body with
  | JObj [("otp", JStr otp);
          ("phone", JObj [("code", JNum c); ("number", JNum n)])] =>
      Ok (otp, (c, n))
  | _ => Raise ValidationError
  end.

Definition sample_user_serializer (u : User) : json :=
  JObj [("telegram_id", JStr (telegram_id u));
        ("name", JStr (name u));
        ("birthday",
         match birthday u with
         | Some d => JArr [JNum (date_year d); JNum (date_month d); JNum (date_day d)]
         | None => JNull
         end);
        ("phone",
         match phone u with
         | Some p => JObj [("code", JNum (code p)); ("number", JNum (number p))]
         | None => JNull
         end)].

Definition sample_entropy : Entropy := mkEntropy (fun k => (7 * k + 3)%nat) 0.

(** A gateway that delivers, and one that is down. *)
Definition gateway_up (_ : Phone) (_ : string) : option string := None.
Definition gateway_down (_ : Phone) (_ : string) : option string :=
  Some "gateway timeout".

Definition sample_env (gateway : Phone -> string -> option string) (now : Z)
    : SmsVerification.Env :=
  SmsVerification.mkEnv 4 600 gateway sample_entropy now.

(** Alice's session after a delivered OTP request at time 1000, and
    after the confirmation of that request. *)
Definition requested_session : Session :=
  mkSession alice (Some (mkPending "4297" (mkPhone 7 9161) 1000)).

Definition verified_session : Session :=
  mkSession (set_phone alice (mkPhone 7 9161)) None.

(** Answers of the last-message service: a stored message with an
    avatar, and a reported error. *)
Definition service_with_message (_ : string) : WebhookLastMessageService :=
  mkLastMessageService
    (Some (mkInfo (JStr "hi") (utcfromtimestamp 1700000000)), None)
    (Some "https://example.org/a.jpg").

Definition service_with_error (_ : string) : WebhookLastMessageService :=
  mkLastMessageService
    (Some (mkInfo (JStr "hi") (utcfromtimestamp 1700000000)),
     Some "avatar lookup failed")
    None.

(** Updates of two other chats. *)
Definition update_chat_7 : json :=
  JObj [("message",
         JObj [("chat", JObj [("id", JNum 7)]);
               ("text", JStr "seven");
               ("date", JNum 1700000100)])].

Definition update_chat_8 : json :=
  JObj [("message",
         JObj [("chat", JObj [("id", JNum 8)]);
               ("text", JStr "eight");
               ("date", JNum 1700000200)])].

Definition sample_avatar_serializer (body : json)
    : outcome (list (string * json)) :=
  match body with
  | JObj fields => Ok (filter (fun kv => String.eqb (fst kv) "avatar_url") fields)
  | _ => Raise ValidationError
  end.

Definition sample_avatar_user_serializer (u : AvatarUser) : json :=
  JObj [("telegram_id", JStr (telegram_id (profile u)));
        ("avatar_url", avatar_url u)].

(* ================================================================== *)
(** * Properties *)

(* ------------------------------------------------------------------ *)
(** ** Equality of payload values *)

Section JsonInduction.

Variable P : json -> Prop.
Hypothesis HNull : P JNull.
Hypothesis HBool : forall b, P (JBool b).
Hypothesis HNum : forall n, P (JNum n).
Hypothesis HStr : forall s, P (JStr s).
Hypothesis HArr : forall items, Forall P items -> P (JArr items).
Hypothesis HObj :
  forall fields, Forall (fun kv => P (snd kv)) fields -> P (JObj fields).

Fixpoint json_nested_ind (j : json) : P j :=
  match j with
  | JNull => HNull
  | JBool b => HBool b
  | JNum n => HNum n
  | JStr s => HStr s
  | JArr items =>
      HArr items
        ((fix all (l : list json) : Forall P l :=
            match l with
            | [] => Forall_nil P
            | x :: l' => Forall_cons x (json_nested_ind x) (all l')
            end) items)
  | JObj fields =>
      HObj fields
        ((fix all (l : list (string * json))
            : Forall (fun kv => P (snd kv)) l :=
            match l with
            | [] => Forall_nil _
            | kv :: l' =>
                Forall_cons (P := fun kv => P (snd kv)) kv
                  (json_nested_ind (snd kv)) (all l')
            end) fields)
  end.

End JsonInduction.

Lemma json_eqb_refl : forall j, json_eqb j j = true.
Proof.
  induction j using json_nested_ind; simpl.
  - reflexivity.
  - apply Bool.eqb_reflx.
  - apply Z.eqb_refl.
  - apply String.eqb_refl.
  - induction H as [|x l Hx _ IH]; [reflexivity|].
    rewrite Hx. exact IH.
  - induction H as [|[k x] l Hx _ IH]; [reflexivity|].
    simpl in Hx. rewrite String.eqb_refl, Hx. exact IH.
Qed.

Lemma json_eqb_true : forall a b, json_eqb a b = true -> a = b.
Proof.
  induction a using json_nested_ind; intros [] E; simpl in E;
    try discriminate; try reflexivity.
  - apply Bool.eqb_prop in E. now subst.
  - apply Z.eqb_eq in E. now subst.
  - apply String.eqb_eq in E. now subst.
  - f_equal. revert items0 E.
    induction H as [|x l Hx _ IH]; intros [|y r] E; try discriminate.
    + reflexivity.
    + apply andb_prop in E as [E1 E2].
      f_equal; [now apply Hx | now apply IH].
  - f_equal. revert fields0 E.
    induction H as [|[k x] l Hx _ IH]; intros [|[k' y] r] E;
      try discriminate.
    + reflexivity.
    + apply andb_prop in E as [E12 E3].
      apply andb_prop in E12 as [E1 E2].
      apply String.eqb_eq in E1. simpl in Hx. apply Hx in E2.
      subst. f_equal. now apply IH.
Qed.

Lemma json_eqb_eq : forall a b, json_eqb a b = true <-> a = b.
Proof.
  split; [apply json_eqb_true|]. intros ->. apply json_eqb_refl.
Qed.

Lemma json_eqb_sym : forall a b, json_eqb a b = json_eqb b a.
Proof.
  intros a b. destruct (json_eqb a b) eqn:E.
  - apply json_eqb_true in E. subst. now rewrite json_eqb_refl.
  - destruct (json_eqb b a) eqn:E'; [|reflexivity].
    apply json_eqb_true in E'. subst. now rewrite json_eqb_refl in E.
Qed.

(* ------------------------------------------------------------------ *)
(** ** The MessageLog table under [update_or_create] *)

Lemma rows_of_app : forall c t1 t2,
  rows_of c (t1 ++ t2) = rows_of c t1 ++ rows_of c t2.
Proof. intros. unfold rows_of. apply filter_app. Qed.

Lemma has_chat_set_defaults : forall c c' t d row,
  has_chat c' (set_defaults c t d row) = has_chat c' row.
Proof.
  intros. unfold set_defaults. destruct (has_chat c row); reflexivity.
Qed.

Lemma rows_of_set_defaults : forall c c' t d table,
  rows_of c' (map (set_defaults c t d) table)
  = map (set_defaults c t d) (rows_of c' table).
Proof.
  intros. unfold rows_of. induction table as [|row table IH]; simpl.
  - reflexivity.
  - rewrite has_chat_set_defaults.
    destruct (has_chat c' row); simpl; now rewrite IH.
Qed.

Lemma set_defaults_other : forall c c' t d table,
  c' <> c ->
  map (set_defaults c t d) (rows_of c' table) = rows_of c' table.
Proof.
  intros c c' t d table Hne. unfold rows_of.
  induction table as [|row table IH]; simpl; [reflexivity|].
  destruct (has_chat c' row) eqn:E; simpl; [|exact IH].
  rewrite IH. f_equal. unfold set_defaults.
  destruct (has_chat c row) eqn:E'; [|reflexivity].
  unfold has_chat in E, E'.
  apply json_eqb_true in E. apply json_eqb_true in E'. congruence.
Qed.

Lemma rows_of_chat : forall c table row,
  In row (rows_of c table) -> chat_id row = c.
Proof.
  intros c table row H. unfold rows_of in H.
  apply filter_In in H as [_ H]. now apply json_eqb_true.
Qed.

(** On a table with at most one row for [c], the upsert succeeds, leaves
    exactly the row [(c, t, d)] for [c] and no other chat's rows change. *)
Lemma update_or_create_spec : forall c t d table,
  (List.length (rows_of c table) <= 1)%nat ->
  fst (update_or_create c t d table) = Ok tt
  /\ rows_of c (snd (update_or_create c t d table)) = [mkMessageLog c t d]
  /\ forall c', c' <> c ->
       rows_of c' (snd (update_or_create c t d table)) = rows_of c' table.
Proof.
  intros c t d table Hlen. unfold update_or_create.
  destruct (rows_of c table) as [|r [|r' rest]] eqn:E; simpl in *.
  - split; [reflexivity|]. split.
    + rewrite rows_of_app, E. simpl. unfold has_chat. simpl.
      now rewrite json_eqb_refl.
    + intros c' Hne. rewrite rows_of_app. simpl. unfold has_chat. simpl.
      destruct (json_eqb c c') eqn:E'.
      * apply json_eqb_true in E'. congruence.
      * apply app_nil_r.
  - split; [reflexivity|]. split.
    + rewrite rows_of_set_defaults, E. simpl. unfold set_defaults.
      assert (Hr : chat_id r = c).
      { apply rows_of_chat with (table := table). rewrite E. now left. }
      unfold has_chat. rewrite Hr, json_eqb_refl. reflexivity.
    + intros c' Hne. rewrite rows_of_set_defaults.
      now apply set_defaults_other.
  - lia.
Qed.

Lemma update_or_create_unique : forall c t d table,
  unique_chats table -> unique_chats (snd (update_or_create c t d table)).
Proof.
  intros c t d table U c'.
  destruct (update_or_create_spec c t d table (U c)) as (_ & Hc & Hother).
  destruct (json_eqb c' c) eqn:E.
  - apply json_eqb_true in E. subst. rewrite Hc. simpl. lia.
  - rewrite Hother; [apply U|]. intros ->. now rewrite json_eqb_refl in E.
Qed.

Lemma update_or_create_raises : forall c t d table e,
  fst (update_or_create c t d table) = Raise e ->
  snd (update_or_create c t d table) = table.
Proof.
  intros c t d table e. unfold update_or_create.
  destruct (rows_of c table) as [|r [|r' rest]]; simpl;
    intros H; try discriminate; reflexivity.
Qed.

(* ------------------------------------------------------------------ *)
(** ** The calendar *)

(** Linear arithmetic with the quotients and remainders of divisions by
    constants named. *)
Ltac div_lia := Z.to_euclidean_division_equations; lia.

Lemma holds_from_sound : forall depth lo f,
  holds_from depth lo f = true ->
  forall x, lo <= x < lo + 2 ^ Z.of_nat depth -> f x = true.
Proof.
  induction depth as [|k IH]; intros lo f H x Hx.
  - simpl in *. replace x with lo by lia. exact H.
  - cbn [holds_from] in H. apply andb_prop in H as [Hlow Hhigh].
    rewrite Nat2Z.inj_succ, Z.pow_succ_r in Hx by lia.
    destruct (Z_lt_ge_dec x (lo + 2 ^ Z.of_nat k)).
    + apply (IH lo f Hlow). lia.
    + apply (IH _ f Hhigh). lia.
Qed.

Lemma year_boundaries_checked : holds_from 9 0 year_boundary_ok = true.
Proof. vm_compute. reflexivity. Qed.

Lemma days_of_year_checked : holds_from 9 0 day_of_year_ok = true.
Proof. vm_compute. reflexivity. Qed.

Lemma year_boundary_spec : forall y,
  0 <= y < 400 ->
  year_of_era (year_start y) = y
  /\ (1 <= y -> year_of_era (year_start y - 1) = y - 1).
Proof.
  intros y Hy.
  assert (H : year_boundary_ok y = true).
  { apply (holds_from_sound 9 0 year_boundary_ok year_boundaries_checked).
    simpl. lia. }
  unfold year_boundary_ok in H.
  apply orb_prop in H as [H|H]; [apply Z.leb_le in H; lia|].
  apply andb_prop in H as [H1 H2]. apply Z.eqb_eq in H1.
  split; [exact H1|]. intros Hpos.
  apply orb_prop in H2 as [H2|H2]; apply Z.eqb_eq in H2; [lia|exact H2].
Qed.

Lemma day_of_year_spec : forall doy,
  0 <= doy <= 365 ->
  1 <= month_of (month_index doy) <= 12
  /\ 1 <= day_of_month doy (month_index doy) <= 31
  /\ year_day (month_of (month_index doy))
       (day_of_month doy (month_index doy)) = doy
  /\ (306 <= doy -> month_of (month_index doy) <= 2)
  /\ (doy <= 305 -> 2 < month_of (month_index doy)).
Proof.
  intros doy Hdoy.
  assert (H : day_of_year_ok doy = true).
  { apply (holds_from_sound 9 0 day_of_year_ok days_of_year_checked).
    simpl. lia. }
  unfold day_of_year_ok in H.
  apply orb_prop in H as [H|H]; [apply Z.leb_le in H; lia|].
  cbv zeta in H.
  repeat (apply andb_prop in H as [H ?]).
  repeat match goal with
         | E : (_ <=? _) = true |- _ => apply Z.leb_le in E
         | E : (_ =? _) = true |- _ => apply Z.eqb_eq in E
         end.
  repeat split; try assumption.
  - intros Hlate. destruct (doy <? 306) eqn:E.
    + apply Z.ltb_lt in E. lia.
    + match goal with E' : (_ <=? _) = true |- _ => now apply Z.leb_le in E' end.
  - intros Hearly. destruct (doy <? 306) eqn:E.
    + match goal with E' : (_ <? _) = true |- _ => now apply Z.ltb_lt in E' end.
    + apply Z.ltb_ge in E. lia.
Qed.

Lemma year_of_era_monotone : forall a b,
  0 <= a <= b -> b < 146096 -> year_of_era a <= year_of_era b.
Proof.
  intros a b Hab Hb. unfold year_of_era.
  rewrite (Z.div_small a 146096), (Z.div_small b 146096) by lia.
  apply Z.div_le_mono; [lia|].
  assert (Hcentury : a / 36524 <= b / 36524) by (apply Z.div_le_mono; lia).
  assert (Hleap : a - a / 1460 <= b - b / 1460).
  { pose proof (Z.div_mod a 1460 ltac:(lia)).
    pose proof (Z.mod_pos_bound a 1460 ltac:(lia)).
    pose proof (Z.div_mod b 1460 ltac:(lia)).
    pose proof (Z.mod_pos_bound b 1460 ltac:(lia)).
    lia. }
  lia.
Qed.

(** The year of the era is the year the day falls in. *)
Lemma year_of_era_spec : forall doe,
  0 <= doe < DAYS_PER_ERA ->
  0 <= year_of_era doe < 400
  /\ 0 <= doe - year_start (year_of_era doe) <= 365.
Proof.
  intros doe Hdoe. unfold DAYS_PER_ERA in Hdoe.
  destruct (Z.eq_dec doe 146096) as [->|Hlast]; [vm_compute; intuition discriminate|].
  assert (Hy : 0 <= year_of_era doe <= 399).
  { split.
    - unfold year_of_era. apply Z.div_pos; [|lia].
      rewrite (Z.div_small doe 146096) by lia.
      pose proof (Z.div_mod doe 1460 ltac:(lia)).
      pose proof (Z.mod_pos_bound doe 1460 ltac:(lia)).
      pose proof (Z.div_pos doe 36524 ltac:(lia) ltac:(lia)).
      lia.
    - change 399 with (year_of_era 146095).
      apply year_of_era_monotone; lia. }
  split; [lia|].
  set (y := year_of_era doe) in *.
  destruct (year_boundary_spec y ltac:(lia)) as [Hstart Hprev].
  assert (Hbound : year_start y <= 145734) by (unfold year_start; div_lia).
  split.
  - destruct (Z_lt_ge_dec doe (year_start y)) as [Hlt|]; [|lia].
    assert (1 <= y).
    { destruct (Z.eq_dec y 0) as [E|]; [|lia].
      rewrite E in Hlt. change (year_start 0) with 0 in Hlt. lia. }
    pose proof (year_of_era_monotone doe (year_start y - 1)
                  ltac:(lia) ltac:(lia)) as Hm.
    rewrite (Hprev H) in Hm. fold y in Hm. lia.
  - destruct (Z_lt_ge_dec (year_start y + 365) doe) as [Hgt|]; [|lia].
    destruct (Z.eq_dec y 399) as [E|Hne].
    + rewrite E in Hgt. change (year_start 399) with 145731 in Hgt. lia.
    + destruct (year_boundary_spec (y + 1) ltac:(lia)) as [Hnext _].
      assert (Hstep : year_start (y + 1) <= year_start y + 366)
        by (unfold year_start; div_lia).
      pose proof (year_of_era_monotone (year_start (y + 1)) doe
                    ltac:(unfold year_start in *; div_lia) ltac:(lia)) as Hm.
      rewrite Hnext in Hm. fold y in Hm. lia.
Qed.

(** The day count of the civil date of a day is that day. *)
Lemma days_from_civil_from_days : forall z,
  let '(y, m, d) := civil_from_days z in days_from_civil y m d = z.
Proof.
  intros z. unfold civil_from_days, days_from_civil. cbv zeta.
  set (era := (z + EPOCH_SHIFT) / DAYS_PER_ERA).
  set (doe := (z + EPOCH_SHIFT) mod DAYS_PER_ERA).
  assert (Hdoe : 0 <= doe < DAYS_PER_ERA)
    by (apply Z.mod_pos_bound; reflexivity).
  destruct (year_of_era_spec doe Hdoe) as (Hyoe & Hdoy).
  destruct (day_of_year_spec _ Hdoy) as (_ & _ & Hback & _).
  set (carry := if month_of (month_index (doe - year_start (year_of_era doe)))
                   <=? 2 then 1 else 0).
  replace (year_of_era doe + era * 400 + carry - carry)
    with (year_of_era doe + era * 400) by lia.
  rewrite Z.div_add, Z.mod_add by discriminate.
  rewrite Z.div_small, Z.mod_small by exact Hyoe.
  rewrite Hback.
  pose proof (Z.div_mod (z + EPOCH_SHIFT) DAYS_PER_ERA) as Hdm.
  fold era doe in Hdm. unfold DAYS_PER_ERA in *. lia.
Qed.

(** [fromtimestamp] and [timestamp] are inverse: the datetime stands
    for the instant it was made from. *)
Lemma timestamp_utcfromtimestamp : forall t,
  timestamp (utcfromtimestamp t) = t.
Proof.
  intros t. unfold utcfromtimestamp.
  pose proof (days_from_civil_from_days (t / 86400)) as Hdays.
  destruct (civil_from_days (t / 86400)) as [[y m] d].
  unfold timestamp. simpl. rewrite Hdays. div_lia.
Qed.

Lemma utcfromtimestamp_fields : forall t,
  MIN_TIMESTAMP <= t <= MAX_TIMESTAMP ->
  1 <= year (utcfromtimestamp t) <= 9999
  /\ 1 <= month (utcfromtimestamp t) <= 12
  /\ 1 <= day (utcfromtimestamp t) <= 31
  /\ 0 <= hour (utcfromtimestamp t) <= 23
  /\ 0 <= minute (utcfromtimestamp t) <= 59
  /\ 0 <= second (utcfromtimestamp t) <= 59
  /\ tzinfo (utcfromtimestamp t) = UTC.
Proof.
  intros t Ht. unfold utcfromtimestamp, civil_from_days. cbv zeta.
  cbn [year month day hour minute second tzinfo].
  set (z := t / 86400).
  set (era := (z + EPOCH_SHIFT) / DAYS_PER_ERA).
  set (doe := (z + EPOCH_SHIFT) mod DAYS_PER_ERA).
  assert (Hdoe : 0 <= doe < DAYS_PER_ERA)
    by (apply Z.mod_pos_bound; reflexivity).
  destruct (year_of_era_spec doe Hdoe) as (Hyoe & Hdoy).
  destruct (day_of_year_spec _ Hdoy) as (Hm & Hd & _ & Hlate & Hearly).
  set (doy := doe - year_start (year_of_era doe)) in *.
  set (m := month_of (month_index doy)) in *.
  pose proof (Z.div_mod (z + EPOCH_SHIFT) DAYS_PER_ERA) as Hdm.
  fold era doe in Hdm.
  unfold MIN_TIMESTAMP, MAX_TIMESTAMP, DAYS_PER_ERA, EPOCH_SHIFT in *.
  assert (Hz : -719162 <= z <= 2932896) by (unfold z; div_lia).
  assert (Hera : 0 <= era <= 24) by lia.
  split; [|repeat split; try lia; div_lia].
  assert (Hcarry : (m <=? 2) = true <-> m <= 2) by apply Z.leb_le.
  destruct (Z.eq_dec era 0) as [E0|E0];
    [|destruct (Z.eq_dec era 24) as [E24|E24]].
  - (* the first era: the days from 0001-01-01 on *)
    assert (Hlow : 306 <= doe) by lia.
    destruct (Z.eq_dec (year_of_era doe) 0) as [Ey|Ey].
    + assert (306 <= doy).
      { unfold doy. rewrite Ey. change (year_start 0) with 0. lia. }
      destruct (m <=? 2) eqn:E; [lia|].
      specialize (Hlate H). apply Z.leb_gt in E. lia.
    + destruct (m <=? 2); lia.
  - (* the last era: the days up to 9999-12-31 *)
    assert (Hhigh : doe <= 146036) by lia.
    destruct (Z.eq_dec (year_of_era doe) 399) as [Ey|Ey].
    + assert (doy <= 305).
      { unfold doy. rewrite Ey. change (year_start 399) with 145731. lia. }
      destruct (m <=? 2) eqn:E; [|lia].
      specialize (Hearly H). apply Z.leb_le in E. lia.
    + destruct (m <=? 2); lia.
  - destruct (m <=? 2); lia.
Qed.

Example utcfromtimestamp_sample :
  utcfromtimestamp 1700000000 = mkDatetime 2023 11 14 22 13 20 UTC
  /\ utcfromtimestamp 0 = mkDatetime 1970 1 1 0 0 0 UTC
  /\ utcfromtimestamp 951782400 = mkDatetime 2000 2 29 0 0 0 UTC
  /\ utcfromtimestamp MIN_TIMESTAMP = mkDatetime 1 1 1 0 0 0 UTC
  /\ utcfromtimestamp MAX_TIMESTAMP = mkDatetime 9999 12 31 23 59 59 UTC
  /\ utcfromtimestamp (-1) = mkDatetime 1969 12 31 23 59 59 UTC.
Proof. repeat split. Qed.

(* ------------------------------------------------------------------ *)
(** ** The webhook handler *)

Import TelegramWebhookAPIView.

Lemma post_without_event : forall update table,
  event update = None -> snd (post update table) = table.
Proof.
  intros update table. unfold event, post.
  destruct (py_in "message" update) as [[|]|e]; try reflexivity.
  destruct (extract update) as [x|e]; [discriminate|reflexivity].
Qed.

Lemma post_with_event : forall update table c t d,
  event update = Some (c, t, d) ->
  post update table
  = (match fst (update_or_create c t d table) with
     | Ok _ => Ok status_ok
     | Raise e => Raise e
     end,
     snd (update_or_create c t d table)).
Proof.
  intros update table c t d. unfold event, post.
  destruct (py_in "message" update) as [[|]|e]; try discriminate.
  destruct (extract update) as [[[c' t'] d']|e]; [|discriminate].
  intros [= -> -> ->].
  destruct (update_or_create c t d table) as [[[]|e] table']; reflexivity.
Qed.

Lemma post_unique : forall update table,
  unique_chats table -> unique_chats (snd (post update table)).
Proof.
  intros update table U.
  destruct (event update) as [[[c t] d]|] eqn:E.
  - rewrite (post_with_event _ _ _ _ _ E). simpl.
    now apply update_or_create_unique.
  - now rewrite post_without_event.
Qed.

Lemma post_other_chat : forall update table c,
  unique_chats table -> writes c update = false ->
  rows_of c (snd (post update table)) = rows_of c table.
Proof.
  intros update table c U W. unfold writes in W.
  destruct (event update) as [[[c' t] d]|] eqn:E.
  - rewrite (post_with_event _ _ _ _ _ E). simpl.
    apply update_or_create_spec; [apply U|].
    intros ->. now rewrite json_eqb_refl in W.
  - now rewrite post_without_event.
Qed.

Lemma deliver_app : forall us vs table,
  deliver (us ++ vs) table = deliver vs (deliver us table).
Proof.
  induction us as [|u us IH]; intros; simpl; [reflexivity|apply IH].
Qed.

Lemma deliver_unique : forall updates table,
  unique_chats table -> unique_chats (deliver updates table).
Proof.
  induction updates as [|u updates IH]; intros table U; simpl.
  - exact U.
  - apply IH. now apply post_unique.
Qed.

Lemma deliver_other_chats : forall updates table c,
  unique_chats table ->
  forallb (fun v => negb (writes c v)) updates = true ->
  rows_of c (deliver updates table) = rows_of c table.
Proof.
  induction updates as [|u updates IH]; intros table c U H; simpl in *.
  - reflexivity.
  - apply andb_prop in H as [Hu Hrest].
    rewrite IH; [|now apply post_unique|exact Hrest].
    apply post_other_chat; [exact U|].
    now destruct (writes c u).
Qed.

(** A well-formed update: an object whose [message] is an object with
    [chat.id] and an integral [date] that [datetime] can represent. *)
Lemma event_of_message : forall fields m chat c d,
  assoc "message" fields = Some (JObj m) ->
  assoc "chat" m = Some (JObj chat) ->
  assoc "id" chat = Some c ->
  assoc "date" m = Some (JNum d) ->
  MIN_TIMESTAMP <= d <= MAX_TIMESTAMP ->
  event (JObj fields)
  = Some (c,
          match assoc "text" m with Some x => x | None => JStr "" end,
          utcfromtimestamp d).
Proof.
  intros fields m chat c d Hm Hchat Hid Hdate Hrange.
  unfold event, extract. simpl. rewrite Hm. simpl.
  rewrite Hchat. simpl. rewrite Hid. simpl. rewrite Hdate. simpl.
  replace ((MIN_TIMESTAMP <=? d) && (d <=? MAX_TIMESTAMP)) with true.
  - reflexivity.
  - symmetry. apply andb_true_intro. split; apply Z.leb_le; lia.
Qed.

(** Payloads that are no objects: a string that contains the word is
    taken for an update with a message, a number cannot be searched. *)
Example post_on_other_payloads :
  py_in "message" (JStr "a message") = Ok true
  /\ post (JStr "a message") [] = (Raise TypeError, [])
  /\ post (JArr [JStr "message"]) [] = (Raise TypeError, [])
  /\ post (JNum 5) [] = (Raise TypeError, [])
  /\ post (JArr []) [] = (Ok status_ok, [])
  /\ post (JObj [("message", JObj [("chat", JObj [("id", JNum 1)]);
                                   ("date", JStr "now")])]) []
     = (Raise TypeError, [])
  /\ post (JObj [("message", JObj [("chat", JObj [("id", JNum 1)]);
                                   ("date", JNum 253402300800)])]) []
     = (Raise TimestampOutOfRange, []).
Proof. repeat split. Qed.

(** C1, as the claim states it, fails: an update that has a [message]
    without [chat] makes the handler raise [KeyError]; nothing absorbs
    it, so the caller sees no 200 acknowledgement. *)
Lemma webhook_error_reaches_caller :
  py_in "message" update_no_chat = Ok true
  /\ post update_no_chat [] = (Raise (KeyError "chat"), [])
  /\ fst (post update_no_chat []) <> Ok status_ok.
Proof.
  repeat split; try reflexivity. discriminate.
Qed.

(** C1 (amended): whenever the handler returns, it returns 200 with
    [{"status": "ok"}]; it does so for every payload without a
    [message] key, leaving the table as it was, and for every payload
    whose message can be read, when the table has at most one row for
    its chat.  An error while reading the message is not absorbed: it
    leaves the handler and the table is unchanged. *)
Theorem webhook_acknowledges_what_it_processes : forall update table,
  (forall r, fst (post update table) = Ok r -> r = status_ok)
  /\ (py_in "message" update = Ok false ->
      post update table = (Ok status_ok, table))
  /\ (forall c t d,
        event update = Some (c, t, d) ->
        (List.length (rows_of c table) <= 1)%nat ->
        fst (post update table) = Ok status_ok)
  /\ (forall e,
        py_in "message" update = Ok true ->
        extract update = Raise e ->
        post update table = (Raise e, table))
  /\ (forall e,
        fst (post update table) = Raise e -> snd (post update table) = table).
Proof.
  intros update table.
  split; [|split; [|split; [|split]]].
  - intros r. unfold post.
    destruct (py_in "message" update) as [[|]|e]; simpl.
    + destruct (extract update) as [[[c t] d]|e]; simpl; [|discriminate].
      destruct (update_or_create c t d table) as [[[]|e] table']; simpl;
        [|discriminate].
      now intros [= <-].
    + now intros [= <-].
    + discriminate.
  - intros H. unfold post. now rewrite H.
  - intros c t d E Hlen. rewrite (post_with_event _ _ _ _ _ E). simpl.
    destruct (update_or_create_spec c t d table Hlen) as [-> _].
    reflexivity.
  - intros e Hin Hex. unfold post. now rewrite Hin, Hex.
  - intros e. destruct (event update) as [[[c t] d]|] eqn:E.
    + rewrite (post_with_event _ _ _ _ _ E). cbn [fst snd].
      destruct (fst (update_or_create c t d table)) as [[]|e'] eqn:Eu;
        [discriminate|].
      intros _. now apply update_or_create_raises with (e := e').
    + intros _. now apply post_without_event.
Qed.

Lemma webhook_acknowledges_what_it_processes_witness :
  post update_edited [] = (Ok status_ok, [])
  /\ fst (post update_hi []) = Ok status_ok
  /\ post update_no_chat [] = (Raise (KeyError "chat"), []).
Proof.
  destruct (webhook_acknowledges_what_it_processes update_edited [])
    as (_ & Hno & _ & _ & _).
  destruct (webhook_acknowledges_what_it_processes update_hi [])
    as (_ & _ & Hmsg & _ & _).
  destruct (webhook_acknowledges_what_it_processes update_no_chat [])
    as (_ & _ & _ & Herr & _).
  split; [apply Hno; reflexivity|].
  split.
  - apply (Hmsg (JNum 42) (JStr "hi") (utcfromtimestamp 1700000000)).
    + reflexivity.
    + simpl. lia.
  - apply Herr; reflexivity.
Defined.

(** C2: on a table with at most one row per chat identifier, every
    sequence of deliveries leaves at most one row per chat identifier,
    and the row of a chat holds the text and time of the last delivery
    that wrote it, whatever was delivered before. *)
Theorem message_log_keeps_latest_per_chat : forall table updates,
  unique_chats table ->
  unique_chats (deliver updates table)
  /\ forall before u after c t d,
       updates = before ++ u :: after ->
       event u = Some (c, t, d) ->
       forallb (fun v => negb (writes c v)) after = true ->
       rows_of c (deliver updates table) = [mkMessageLog c t d].
Proof.
  intros table updates U. split.
  - now apply deliver_unique.
  - intros before u after c t d -> E Hafter.
    rewrite deliver_app. simpl.
    pose proof (deliver_unique before table U) as Ub.
    rewrite deliver_other_chats; [|now apply post_unique|exact Hafter].
    rewrite (post_with_event _ _ _ _ _ E). simpl.
    apply update_or_create_spec. apply Ub.
Qed.

Lemma message_log_keeps_latest_per_chat_witness :
  unique_chats (deliver [update_hi; update_photo; update_edited] [])
  /\ rows_of (JNum 42) (deliver [update_hi; update_photo; update_edited] [])
     = [mkMessageLog (JNum 42) (JStr "") (utcfromtimestamp 1700000060)].
Proof.
  assert (U : unique_chats []) by (intros c; simpl; lia).
  destruct (message_log_keeps_latest_per_chat
              [] [update_hi; update_photo; update_edited] U) as [Hu Hlast].
  split; [exact Hu|].
  apply (Hlast [update_hi] update_photo [update_edited]); reflexivity.
Defined.



(* ------------------------------------------------------------------ *)
(** ** The OTP generator *)

Lemma alphabet_get : forall i,
  (i < 9)%nat ->
  exists c, String.get i OTP_ALPHABET = Some c
            /\ is_nonzero_digit c = true /\ c <> "0"%char.
Proof.
  intros i Hi.
  do 9 (destruct i as [|i];
        [eexists; split; [reflexivity|split; [reflexivity|discriminate]]|]).
  lia.
Qed.

Lemma choice_alphabet : forall os,
  exists c,
    choice OTP_ALPHABET os = (Ok c, mkEntropy (stream os) (S (drawn os)))
    /\ String.get (Nat.modulo (stream os (drawn os)) 9) OTP_ALPHABET = Some c
    /\ is_nonzero_digit c = true /\ c <> "0"%char.
Proof.
  intros os.
  destruct (alphabet_get (Nat.modulo (stream os (drawn os)) 9))
    as (c & Hget & Hdigit & Hzero).
  { apply Nat.mod_upper_bound. discriminate. }
  exists c. unfold choice.
  change (String.length OTP_ALPHABET) with 9%nat. rewrite Hget. auto.
Qed.

Lemma join_choices_spec : forall n os,
  exists otp,
    join_choices n os = (Ok otp, mkEntropy (stream os) (drawn os + n))
    /\ String.length otp = n
    /\ (forall i c, String.get i otp = Some c ->
          is_nonzero_digit c = true /\ c <> "0"%char)
    /\ (forall i, (i < n)%nat ->
          String.get i otp
          = String.get (Nat.modulo (stream os (drawn os + i)) 9) OTP_ALPHABET).
Proof.
  induction n as [|n IH]; intros os.
  - exists EmptyString. simpl. rewrite Nat.add_0_r.
    destruct os; simpl. repeat split; try discriminate. intros i Hi. lia.
  - destruct (choice_alphabet os) as (c & Hc & Hget & Hdigit & Hzero).
    destruct (IH (mkEntropy (stream os) (S (drawn os))))
      as (s & Hs & Hlen & Hall & Hdraw).
    simpl in Hs, Hdraw.
    exists (String c s).
    split; [simpl; rewrite Hc, Hs; now rewrite Nat.add_succ_r|].
    split; [simpl; now rewrite Hlen|]. split.
    + intros [|i] c'; simpl.
      * intros [= <-]. auto.
      * apply Hall.
    + intros [|i] Hi.
      * rewrite Nat.add_0_r, Hget. reflexivity.
      * rewrite Nat.add_succ_r. change (String.get (S i) (String c s))
          with (String.get i s). rewrite Hdraw by lia. reflexivity.
Qed.

(** C3: for a configured length [L >= 1] and whatever the entropy
    source yields, [get_otp] returns a string of exactly [L] characters,
    each one of '1'..'9' and none '0'; the character at position [i] is
    the one selected by the [i]-th draw of its own from the source, and
    [L] draws are consumed. *)
Theorem get_otp_length_and_digits : forall L os,
  1 <= L ->
  exists otp,
    get_otp L os
    = (Ok otp, mkEntropy (stream os) (drawn os + Z.to_nat L))
    /\ Z.of_nat (String.length otp) = L
    /\ (forall i c, String.get i otp = Some c ->
          is_nonzero_digit c = true /\ c <> "0"%char)
    /\ (forall i, (i < Z.to_nat L)%nat ->
          String.get i otp
          = String.get (Nat.modulo (stream os (drawn os + i)) 9) OTP_ALPHABET).
Proof.
  intros L os HL. unfold get_otp.
  destruct (join_choices_spec (Z.to_nat L) os)
    as (otp & Hrun & Hlen & Hall & Hdraw).
  exists otp. split; [exact Hrun|]. split; [|split; assumption].
  rewrite Hlen. lia.
Qed.

Lemma get_otp_length_and_digits_witness :
  exists otp,
    get_otp 4 (mkEntropy (fun k => (7 * k + 3)%nat) 0)
    = (Ok otp, mkEntropy (fun k => (7 * k + 3)%nat) (0 + Z.to_nat 4))
    /\ Z.of_nat (String.length otp) = 4
    /\ (forall i c, String.get i otp = Some c ->
          is_nonzero_digit c = true /\ c <> "0"%char)
    /\ (forall i, (i < Z.to_nat 4)%nat ->
          String.get i otp
          = String.get (Nat.modulo ((7 * (0 + i) + 3)%nat) 9) OTP_ALPHABET).
Proof.
  apply (get_otp_length_and_digits 4 (mkEntropy (fun k => (7 * k + 3)%nat) 0)).
  lia.
Defined.

Example get_otp_sample :
  fst (get_otp 4 (mkEntropy (fun k => (7 * k + 3)%nat) 0)) = Ok "4297".
Proof. reflexivity. Qed.

(* ------------------------------------------------------------------ *)
(** ** The birthday handler *)

Section Birthday.

Variable UserBirthdaySerializer : json -> outcome date.
Variable UserSerializer : User -> json.

Local Abbreviation post :=
  (UserBirthdayAPIView.post UserBirthdaySerializer UserSerializer).
Local Abbreviation posts :=
  (UserBirthdayAPIView.posts UserBirthdaySerializer UserSerializer).

Lemma post_birthday_registered : forall body u d,
  birthday u = Some d -> post body u = (Raise BirthdayAlreadyRegistered, u).
Proof.
  intros body u d H. unfold UserBirthdayAPIView.post. now rewrite H.
Qed.

Lemma post_birthday_unset : forall body u d,
  birthday u = None -> UserBirthdaySerializer body = Ok d ->
  post body u
  = (Ok (mkResponse (UserSerializer (set_birthday u d)) HTTP_200_OK),
     set_birthday u d).
Proof.
  intros body u d H V. unfold UserBirthdayAPIView.post.
  now rewrite H, V.
Qed.

Lemma posts_birthday_registered : forall bodies u d,
  birthday u = Some d -> posts bodies u = u.
Proof.
  induction bodies as [|b bodies IH]; intros u d H; simpl.
  - reflexivity.
  - rewrite (post_birthday_registered b u d H). simpl.
    now apply IH with (d := d).
Qed.

(** C5: a birthday request on a user without birthday, with a body the
    serializer accepts, succeeds and stores that birthday; after it,
    and after any number of further requests, every request fails with
    [BirthdayAlreadyRegistered] and the stored birthday is still the
    first one. *)
Theorem birthday_is_write_once : forall u body d,
  birthday u = None ->
  UserBirthdaySerializer body = Ok d ->
  let u1 := snd (post body u) in
  fst (post body u)
  = Ok (mkResponse (UserSerializer (set_birthday u d)) HTTP_200_OK)
  /\ birthday u1 = Some d
  /\ forall later body',
       post body' (posts later u1) = (Raise BirthdayAlreadyRegistered, u1)
       /\ birthday (snd (post body' (posts later u1))) = Some d.
Proof.
  intros u body d Hnone Hvalid u1. subst u1.
  rewrite (post_birthday_unset body u d Hnone Hvalid). simpl.
  split; [reflexivity|]. split; [reflexivity|].
  intros later body'.
  rewrite (posts_birthday_registered later (set_birthday u d) d eq_refl).
  rewrite (post_birthday_registered body' (set_birthday u d) d eq_refl).
  split; reflexivity.
Qed.

(** C10: on a user whose birthday is set, the request fails with
    [BirthdayAlreadyRegistered] whatever the body is and whatever the
    serializer would say of it, a [ValidationError] included, and the
    user is unchanged. *)
Theorem birthday_guard_precedes_validation : forall u body d,
  birthday u = Some d ->
  post body u = (Raise BirthdayAlreadyRegistered, u)
  /\ (UserBirthdaySerializer body = Raise ValidationError ->
      fst (post body u) <> Raise ValidationError).
Proof.
  intros u body d H. rewrite (post_birthday_registered body u d H).
  split; [reflexivity|]. simpl. discriminate.
Qed.

End Birthday.

Lemma birthday_is_write_once_witness :
  birthday
    (snd (UserBirthdayAPIView.post sample_birthday_serializer
            sample_user_serializer birthday_body alice))
  = Some (mkDate 1990 5 17)
  /\ UserBirthdayAPIView.post sample_birthday_serializer sample_user_serializer
       (JObj [("birthday", JStr "2001-01-01")])
       (UserBirthdayAPIView.posts sample_birthday_serializer
          sample_user_serializer [birthday_body; JNull]
          (snd (UserBirthdayAPIView.post sample_birthday_serializer
                  sample_user_serializer birthday_body alice)))
     = (Raise BirthdayAlreadyRegistered,
        set_birthday alice (mkDate 1990 5 17)).
Proof.
  destruct (birthday_is_write_once sample_birthday_serializer
              sample_user_serializer alice birthday_body (mkDate 1990 5 17)
              eq_refl eq_refl) as (_ & Hset & Hlater).
  split; [exact Hset|].
  exact (proj1 (Hlater [birthday_body; JNull]
                  (JObj [("birthday", JStr "2001-01-01")]))).
Defined.

Lemma birthday_guard_precedes_validation_witness :
  UserBirthdayAPIView.post (fun _ => Raise ValidationError)
    sample_user_serializer (JObj [])
    (set_birthday alice (mkDate 1990 5 17))
  = (Raise BirthdayAlreadyRegistered, set_birthday alice (mkDate 1990 5 17)).
Proof.
  apply (birthday_guard_precedes_validation (fun _ => Raise ValidationError)
           sample_user_serializer (set_birthday alice (mkDate 1990 5 17))
           (JObj []) (mkDate 1990 5 17)).
  reflexivity.
Defined.

(* ------------------------------------------------------------------ *)
(** ** The phone handlers *)

Lemma get_otp_returns : forall L os, exists otp, fst (get_otp L os) = Ok otp.
Proof.
  intros L os. unfold get_otp.
  destruct (join_choices_spec (Z.to_nat L) os) as (otp & Hrun & _).
  exists otp. now rewrite Hrun.
Qed.

Lemma phone_eqb_refl : forall p, SmsVerification.phone_eqb p p = true.
Proof.
  intros p. unfold SmsVerification.phone_eqb. now rewrite !Z.eqb_refl.
Qed.

Section PhoneRequest.

Variable UserPhoneSerializer : json -> outcome (Z * Z).

Local Abbreviation post := (UserPhoneUpdateView.post UserPhoneSerializer).

(** The handler on top of any service: a delivery error of the service
    leaves the handler as a delivery error with the prefixed cause, any
    other exception unchanged, and a returned code in the body. *)
Lemma post_relays_service : forall service body code number s,
  UserPhoneSerializer body = Ok (code, number) ->
  post service body s
  = match request_verification service code number s with
    | (Raise (SmsDeliveryError cause), s') =>
        (Raise (SmsDeliveryError ("Failed to send SMS: " ++ cause)%string), s')
    | (Raise e, s') => (Raise e, s')
    | (Ok otp, s') =>
        (Ok (mkResponse (JObj [("otp", JStr otp)]) HTTP_200_OK), s')
    end.
Proof.
  intros service body code number s V.
  unfold UserPhoneUpdateView.post. rewrite V. reflexivity.
Qed.

(** C6: for a body the serializer accepts, (1) on top of any service,
    when the service reports a delivery failure the request fails with
    [SmsDeliveryError] whose detail is "Failed to send SMS: " followed
    by the cause, and when it returns a code the response is 200 with
    body [{"otp": code}]; (2) with the service of the specification,
    the gateway failing with a cause gives that error and no pending
    verification is recorded, and the gateway delivering gives 200 with
    the generated code. *)
Theorem otp_request_delivery_outcome : forall body code number s,
  UserPhoneSerializer body = Ok (code, number) ->
  (forall service,
     (forall cause s',
        request_verification service code number s
        = (Raise (SmsDeliveryError cause), s') ->
        post service body s
        = (Raise (SmsDeliveryError ("Failed to send SMS: " ++ cause)%string),
           s'))
     /\ (forall otp s',
           request_verification service code number s = (Ok otp, s') ->
           post service body s
           = (Ok (mkResponse (JObj [("otp", JStr otp)]) HTTP_200_OK), s')))
  /\ (forall env,
        exists otp,
          fst (get_otp (SmsVerification.digits env)
                 (SmsVerification.entropy env)) = Ok otp
          /\ match SmsVerification.send_sms env (mkPhone code number) otp with
             | Some cause =>
                 post (SmsVerification.service env) body s
                 = (Raise (SmsDeliveryError
                             ("Failed to send SMS: " ++ cause)%string), s)
             | None =>
                 post (SmsVerification.service env) body s
                 = (Ok (mkResponse (JObj [("otp", JStr otp)]) HTTP_200_OK),
                    mkSession (user s)
                      (Some (mkPending otp (mkPhone code number)
                               (SmsVerification.now env))))
             end).
Proof.
  intros body code number s V. split.
  - intros service. split.
    + intros cause s' H.
      rewrite (post_relays_service service body code number s V).
      now rewrite H.
    + intros otp s' H.
      rewrite (post_relays_service service body code number s V).
      now rewrite H.
  - intros env.
    destruct (get_otp_returns (SmsVerification.digits env)
                (SmsVerification.entropy env)) as (otp & Hotp).
    exists otp. split; [exact Hotp|].
    rewrite (post_relays_service _ body code number s V). simpl.
    unfold SmsVerification.spec_request_verification. rewrite Hotp.
    destruct (SmsVerification.send_sms env (mkPhone code number) otp);
      reflexivity.
Qed.

End PhoneRequest.

Lemma otp_request_delivery_outcome_witness :
  UserPhoneUpdateView.post sample_phone_serializer
    (SmsVerification.service (sample_env gateway_down 1000))
    phone_body (mkSession alice None)
  = (Raise (SmsDeliveryError "Failed to send SMS: gateway timeout"),
     mkSession alice None)
  /\ UserPhoneUpdateView.post sample_phone_serializer
       (SmsVerification.service (sample_env gateway_up 1000))
       phone_body (mkSession alice None)
     = (Ok (mkResponse (JObj [("otp", JStr "4297")]) HTTP_200_OK),
        mkSession alice (Some (mkPending "4297" (mkPhone 7 9161) 1000))).
Proof.
  destruct (otp_request_delivery_outcome sample_phone_serializer
              phone_body 7 9161 (mkSession alice None) eq_refl)
    as [Hany _].
  split.
  - apply (proj1 (Hany (SmsVerification.service (sample_env gateway_down 1000)))
             "gateway timeout" (mkSession alice None)).
    reflexivity.
  - apply (proj2 (Hany (SmsVerification.service (sample_env gateway_up 1000)))
             "4297" (mkSession alice (Some (mkPending "4297" (mkPhone 7 9161) 1000)))).
    reflexivity.
Defined.

Section PhoneVerification.

Variable UserPhoneVerificationSerializer : json -> outcome (string * (Z * Z)).
Variable UserSerializer : User -> json.

Local Abbreviation patch :=
  (UserPhoneUpdateView.patch UserPhoneVerificationSerializer UserSerializer).

Lemma patch_without_pending : forall env body s,
  pending s = None ->
  returned (fst (patch (SmsVerification.service env) body s)) = false
  /\ snd (patch (SmsVerification.service env) body s) = s.
Proof.
  intros env body s H. unfold UserPhoneUpdateView.patch.
  destruct (UserPhoneVerificationSerializer body) as [[otp [c n]]|e];
    [|split; reflexivity].
  simpl. unfold SmsVerification.spec_verify_code. rewrite H.
  split; reflexivity.
Qed.

Lemma patch_consumed : forall env body s otp c n,
  pending s = None ->
  UserPhoneVerificationSerializer body = Ok (otp, (c, n)) ->
  patch (SmsVerification.service env) body s = (Raise NoPendingVerification, s).
Proof.
  intros env body s otp c n H V. unfold UserPhoneUpdateView.patch.
  rewrite V. simpl. unfold SmsVerification.spec_verify_code. now rewrite H.
Qed.

(** C4: for a user with a pending verification that has not expired,
    confirming with its OTP and its phone succeeds: the response is the
    updated user, the user's phone is the candidate phone whatever it
    was before, and the pending verification is gone.  After that,
    every further confirmation fails and changes nothing, the one with
    the same body with [NoPendingVerification]. *)
Theorem verification_succeeds_exactly_once : forall env s p body,
  pending s = Some p ->
  SmsVerification.expired env p = false ->
  UserPhoneVerificationSerializer body
  = Ok (pending_otp p, (code (pending_phone p), number (pending_phone p))) ->
  let verified := mkSession (set_phone (user s) (pending_phone p)) None in
  patch (SmsVerification.service env) body s
  = (Ok (mkResponse (UserSerializer (user verified)) HTTP_200_OK), verified)
  /\ phone (user verified) = Some (pending_phone p)
  /\ pending verified = None
  /\ forall env',
       patch (SmsVerification.service env') body verified
       = (Raise NoPendingVerification, verified)
       /\ forall body',
            returned (fst (patch (SmsVerification.service env') body' verified))
            = false
            /\ snd (patch (SmsVerification.service env') body' verified)
               = verified.
Proof.
  intros env s p body Hp Hlive V verified.
  split.
  - unfold UserPhoneUpdateView.patch. rewrite V. simpl.
    unfold SmsVerification.spec_verify_code. rewrite Hp, Hlive.
    rewrite String.eqb_refl.
    destruct (pending_phone p) as [c n] eqn:Ephone. simpl.
    rewrite phone_eqb_refl. reflexivity.
  - split; [reflexivity|]. split; [reflexivity|].
    intros env'. split.
    + eapply patch_consumed; [reflexivity|exact V].
    + intros body'. now apply patch_without_pending.
Qed.

End PhoneVerification.

Lemma verification_succeeds_exactly_once_witness :
  UserPhoneUpdateView.patch sample_verification_serializer
    sample_user_serializer
    (SmsVerification.service (sample_env gateway_up 1100))
    (verification_body "4297") requested_session
  = (Ok (mkResponse (sample_user_serializer (user verified_session))
           HTTP_200_OK),
     verified_session)
  /\ UserPhoneUpdateView.patch sample_verification_serializer
       sample_user_serializer
       (SmsVerification.service (sample_env gateway_up 1101))
       (verification_body "4297") verified_session
     = (Raise NoPendingVerification, verified_session).
Proof.
  destruct (verification_succeeds_exactly_once sample_verification_serializer
              sample_user_serializer (sample_env gateway_up 1100)
              requested_session (mkPending "4297" (mkPhone 7 9161) 1000)
              (verification_body "4297") eq_refl eq_refl eq_refl)
    as (Hfirst & _ & _ & Hagain).
  split; [exact Hfirst|].
  exact (proj1 (Hagain (sample_env gateway_up 1101))).
Defined.

Example request_then_verify :
  snd (UserPhoneUpdateView.post sample_phone_serializer
         (SmsVerification.service (sample_env gateway_up 1000))
         phone_body (mkSession alice None))
  = requested_session.
Proof. reflexivity. Qed.

(* ------------------------------------------------------------------ *)
(** ** The last-message handler *)

Example strftime_sample :
  strftime_HM (utcfromtimestamp 1700000000) = "22:13".
Proof. reflexivity. Qed.

Lemma truthy_some : forall e,
  truthy e = true -> exists cause, e = Some cause /\ cause <> EmptyString.
Proof.
  intros [[|c s]|] H; try discriminate.
  exists (String c s). split; [reflexivity|discriminate].
Qed.

(** C7: whatever the service answers for the user's chat identifier, if
    the error it reports is non-empty the response has status 400 and
    the body [{"error": error}], whether or not there is message info;
    otherwise the response has status 200 and carries the avatar URL
    ([null] when there is none), the message and its time ([null] both
    when there is no message info), and no [error] field. *)
Theorem last_message_error_or_content :
  forall service_for u info error avatar_url,
  service_for (telegram_id u) = mkLastMessageService (info, error) avatar_url ->
  (truthy error = true ->
   exists cause,
     error = Some cause
     /\ LastMessageAPIView.get service_for u
        = mkResponse (JObj [("error", JStr cause)]) 400
     /\ 400 <= status (LastMessageAPIView.get service_for u) < 500)
  /\ (truthy error = false ->
      LastMessageAPIView.get service_for u
      = mkResponse
          (JObj [("avatar_url", json_of_option avatar_url);
                 ("message",
                  match info with Some i => message i | None => JNull end);
                 ("time",
                  match info with
                  | Some i => JStr (strftime_HM (time i))
                  | None => JNull
                  end)])
          HTTP_200_OK
      /\ py_in "error" (data (LastMessageAPIView.get service_for u))
         = Ok false).
Proof.
  intros service_for u info error avatar_url Hsvc.
  unfold LastMessageAPIView.get. rewrite Hsvc. simpl. split; intros Htruthy.
  - destruct (truthy_some error Htruthy) as (cause & -> & _).
    exists cause. rewrite Htruthy. simpl.
    split; [reflexivity|]. split; [reflexivity|lia].
  - rewrite Htruthy. split; reflexivity.
Qed.

Lemma last_message_error_or_content_witness :
  LastMessageAPIView.get service_with_message alice
  = mkResponse
      (JObj [("avatar_url", JStr "https://example.org/a.jpg");
             ("message", JStr "hi");
             ("time", JStr "22:13")])
      HTTP_200_OK
  /\ exists cause,
       Some "avatar lookup failed" = Some cause
       /\ LastMessageAPIView.get service_with_error alice
          = mkResponse (JObj [("error", JStr cause)]) 400
       /\ 400 <= status (LastMessageAPIView.get service_with_error alice) < 500.
Proof.
  split.
  - apply (proj2 (last_message_error_or_content service_with_message alice
                    _ _ _ eq_refl)).
    reflexivity.
  - apply (proj1 (last_message_error_or_content service_with_error alice
                    _ _ _ eq_refl)).
    reflexivity.
Defined.

(* ------------------------------------------------------------------ *)
(** ** The Phone table *)

Import Migration0001.

Lemma create_in_range : forall code number table,
  0 <= code <= 32767 -> 0 <= number <= 32767 ->
  exists row,
    create code number table = (Ok row, table ++ [row])
    /\ Migration0001.code row = code /\ Migration0001.phone row = number.
Proof.
  intros code number table Hc Hn. unfold create, PositiveSmallIntegerField.
  replace ((0 <=? code) && (code <=? 32767)) with true
    by (symmetry; apply andb_true_intro; split; apply Z.leb_le; lia).
  replace ((0 <=? number) && (number <=? 32767)) with true
    by (symmetry; apply andb_true_intro; split; apply Z.leb_le; lia).
  simpl. eexists. split; [reflexivity|]. split; reflexivity.
Qed.


(* ================================================================== *)
(** * Further properties of the handlers *)

(* ------------------------------------------------------------------ *)
(** ** The webhook handler: errors, redelivery, order *)

Lemma extract_error_kinds : forall fields m e,
  assoc "message" fields = Some m ->
  extract (JObj fields) = Raise e ->
  e = TypeError \/ e = TimestampOutOfRange
  \/ e = KeyError "chat" \/ e = KeyError "id" \/ e = KeyError "date".
Proof.
  intros fields m e Hm. unfold extract. cbn [py_getitem bind]. rewrite Hm.
  destruct m as [| | | | |mf]; cbn [py_getitem bind];
    try (intros [= <-]; now left).
  destruct (assoc "chat" mf) as [ch|];
    [|intros [= <-]; right; right; now left].
  destruct ch as [| | | | |cf]; cbn [py_getitem bind];
    try (intros [= <-]; now left).
  destruct (assoc "id" cf) as [c|];
    [|intros [= <-]; right; right; right; now left].
  cbn [py_get bind].
  destruct (assoc "date" mf) as [dt|];
    [|intros [= <-]; right; right; right; now right].
  destruct dt as [|b|n| | |]; cbn [fromtimestamp bind];
    try (intros [= <-]; now left); try discriminate.
  destruct ((MIN_TIMESTAMP <=? n) && (n <=? MAX_TIMESTAMP));
    cbn [bind]; [discriminate|].
  intros [= <-]. right. now left.
Qed.



Lemma set_defaults_fixed : forall c t d table,
  (forall row, In row (rows_of c table) -> row = mkMessageLog c t d) ->
  map (set_defaults c t d) table = table.
Proof.
  intros c t d table H. induction table as [|row table IH]; simpl.
  - reflexivity.
  - unfold rows_of in H. simpl in H.
    unfold set_defaults at 1. destruct (has_chat c row) eqn:E.
    + rewrite (H row (or_introl eq_refl)) at 2.
      rewrite (H row (or_introl eq_refl)) at 1. cbn [chat_id].
      f_equal. apply IH. intros r Hr. apply H. now right.
    + f_equal. apply IH. exact H.
Qed.

Lemma update_or_create_again : forall c t d table,
  update_or_create c t d (snd (update_or_create c t d table))
  = update_or_create c t d table.
Proof.
  intros c t d table.
  destruct (Compare_dec.le_gt_dec (List.length (rows_of c table)) 1)
    as [Hlen|Hlen].
  - destruct (update_or_create_spec c t d table Hlen) as (Hok & Hrow & _).
    rewrite (surjective_pairing (update_or_create c t d table)) at 2.
    rewrite Hok.
    unfold update_or_create at 1. rewrite Hrow. f_equal.
    apply set_defaults_fixed. intros row. rewrite Hrow.
    intros [<-|[]]. reflexivity.
  - unfold update_or_create.
    destruct (rows_of c table) as [|r [|r' rest]] eqn:E;
      simpl in Hlen; try lia.
    simpl. now rewrite E.
Qed.

(** X2: delivering an update a second time gives the same outcome as
    the first delivery and leaves the table as the first delivery left
    it, whatever the update and the table are. *)
Theorem webhook_redelivery_changes_nothing : forall update table,
  post update (snd (post update table)) = post update table.
Proof.
  intros update table.
  destruct (event update) as [[[c t] d]|] eqn:E.
  - rewrite !(post_with_event _ _ _ _ _ E). cbn [snd].
    now rewrite update_or_create_again.
  - now rewrite (post_without_event _ _ E).
Qed.

Lemma chat_id_set_defaults : forall c t d table,
  map chat_id (map (set_defaults c t d) table) = map chat_id table.
Proof.
  intros c t d table. rewrite map_map. apply map_ext. intros row.
  unfold set_defaults. destruct (has_chat c row); reflexivity.
Qed.

Lemma post_keeps_rows : forall update table,
  exists added,
    map chat_id (snd (post update table)) = map chat_id table ++ added
    /\ (List.length added <= 1)%nat.
Proof.
  intros update table.
  destruct (event update) as [[[c t] d]|] eqn:E.
  - rewrite (post_with_event _ _ _ _ _ E). cbn [snd].
    unfold update_or_create.
    destruct (rows_of c table) as [|r [|r' rest]]; cbn [snd].
    + exists [c]. rewrite map_app. split; [reflexivity|simpl; lia].
    + exists []. rewrite chat_id_set_defaults, app_nil_r.
      split; [reflexivity|simpl; lia].
    + exists []. rewrite app_nil_r. split; [reflexivity|simpl; lia].
  - rewrite (post_without_event _ _ E). exists [].
    rewrite app_nil_r. split; [reflexivity|simpl; lia].
Qed.

(** X3: deliveries never delete a row, never change the chat
    identifier of a row and never reorder rows: after any sequence of
    deliveries the chat identifiers of the table are those it had, in
    the same order, followed by at most one new identifier per
    delivery. *)
Theorem webhook_never_deletes_rows : forall updates table,
  exists added,
    map chat_id (deliver updates table) = map chat_id table ++ added
    /\ (List.length added <= List.length updates)%nat.
Proof.
  induction updates as [|u updates IH]; intros table; cbn [deliver].
  - exists []. rewrite app_nil_r. split; [reflexivity|simpl; lia].
  - destruct (post_keeps_rows u table) as (first & Hfirst & Hlen1).
    destruct (IH (snd (post u table))) as (rest & Hrest & Hlen).
    exists (first ++ rest). rewrite Hrest, Hfirst, app_assoc.
    split; [reflexivity|]. rewrite length_app. simpl. lia.
Qed.

Lemma rows_after_post : forall update table c,
  unique_chats table ->
  rows_of c (snd (post update table))
  = match event update with
    | Some (c', t, d) =>
        if json_eqb c' c then [mkMessageLog c' t d] else rows_of c table
    | None => rows_of c table
    end.
Proof.
  intros update table c U.
  destruct (event update) as [[[c' t] d]|] eqn:E.
  - rewrite (post_with_event _ _ _ _ _ E). cbn [snd].
    destruct (update_or_create_spec c' t d table (U c')) as (_ & Hrow & Hother).
    destruct (json_eqb c' c) eqn:Ec.
    + apply json_eqb_true in Ec. subst c'. exact Hrow.
    + apply Hother. intros ->. now rewrite json_eqb_refl in Ec.
  - now rewrite (post_without_event _ _ E).
Qed.

(** X4: two updates that do not write the same chat can be delivered
    in either order: on a table with at most one row per chat, every
    chat has the same rows after both orders. *)
Theorem webhook_deliveries_commute : forall u v table,
  unique_chats table ->
  (forall c, writes c u = true -> writes c v = false) ->
  forall c,
    rows_of c (deliver [u; v] table) = rows_of c (deliver [v; u] table).
Proof.
  intros u v table U Hdisjoint c. cbn [deliver].
  rewrite (rows_after_post v _ c (post_unique u table U)).
  rewrite (rows_after_post u _ c (post_unique v table U)).
  rewrite (rows_after_post u table c U), (rows_after_post v table c U).
  specialize (Hdisjoint c). unfold writes in Hdisjoint.
  destruct (event u) as [[[cu tu] du]|];
    destruct (event v) as [[[cv tv] dv]|]; try reflexivity.
  destruct (json_eqb cu c); destruct (json_eqb cv c); try reflexivity.
  specialize (Hdisjoint eq_refl). discriminate.
Qed.

Lemma webhook_deliveries_commute_witness :
  rows_of (JNum 7) (deliver [update_chat_7; update_chat_8] [])
  = rows_of (JNum 7) (deliver [update_chat_8; update_chat_7] []).
Proof.
  apply (webhook_deliveries_commute update_chat_7 update_chat_8 []).
  - intros c. simpl. lia.
  - intros c. unfold writes.
    destruct c as [|b|n|s|items|fields]; cbv -[Z.eqb]; try discriminate.
    intros H. apply Z.eqb_eq in H. subst n. reflexivity.
Defined.

(* ------------------------------------------------------------------ *)
(** ** The OTP generator: edge lengths, reachable codes, composition *)

(** X5: [get_otp] never raises, whatever the configured length is, and
    for a length of zero or below it returns the empty string and
    draws nothing. *)
Theorem get_otp_nonpositive_length : forall L os,
  returned (fst (get_otp L os)) = true
  /\ (L <= 0 -> get_otp L os = (Ok EmptyString, os)).
Proof.
  intros L os. split.
  - destruct (get_otp_returns L os) as (otp & ->). reflexivity.
  - intros HL. unfold get_otp.
    replace (Z.to_nat L) with 0%nat by lia. reflexivity.
Qed.

Lemma get_otp_nonpositive_length_witness :
  get_otp (-3) sample_entropy = (Ok EmptyString, sample_entropy).
Proof.
  apply (proj2 (get_otp_nonpositive_length (-3) sample_entropy)). lia.
Defined.

Lemma alphabet_index : forall c,
  is_nonzero_digit c = true ->
  (nat_of_ascii c - 49 < 9)%nat
  /\ String.get (nat_of_ascii c - 49) OTP_ALPHABET = Some c.
Proof.
  intros c H. unfold is_nonzero_digit in H.
  apply andb_prop in H as [Hlow Hhigh].
  apply Nat.leb_le in Hlow. apply Nat.leb_le in Hhigh.
  split; [lia|].
  rewrite <- (ascii_nat_embedding c) at 2.
  assert (Hcases : exists i, (i < 9)%nat /\ nat_of_ascii c = (49 + i)%nat)
    by (exists (nat_of_ascii c - 49)%nat; lia).
  destruct Hcases as (i & Hi & ->).
  replace (49 + i - 49)%nat with i by lia.
  do 9 (destruct i as [|i]; [reflexivity|]). lia.
Qed.

Lemma join_choices_of_draws : forall otp draws k,
  (forall i c, String.get i otp = Some c ->
     is_nonzero_digit c = true
     /\ draws (k + i)%nat = (nat_of_ascii c - 49)%nat) ->
  join_choices (String.length otp) (mkEntropy draws k)
  = (Ok otp, mkEntropy draws (k + String.length otp)).
Proof.
  induction otp as [|c otp IH]; intros draws k H.
  - cbn [String.length join_choices]. now rewrite Nat.add_0_r.
  - destruct (H 0%nat c eq_refl) as [Hdigit Hdraw].
    destruct (alphabet_index c Hdigit) as [Hbound Hget].
    cbn [String.length join_choices]. unfold choice.
    cbn [stream drawn].
    change (String.length OTP_ALPHABET) with 9%nat.
    rewrite Nat.add_0_r in Hdraw. rewrite Hdraw.
    rewrite Nat.mod_small by exact Hbound. rewrite Hget.
    rewrite (IH draws (S k)).
    + now rewrite Nat.add_succ_r.
    + intros i c' Hi. destruct (H (S i) c' Hi) as [Hd Hs].
      split; [exact Hd|]. now rewrite Nat.add_succ_r in Hs.
Qed.

(** X6: every string of the digits 1 to 9 is a code that [get_otp] can
    return: with the draws that select its characters, [get_otp] of
    its length returns exactly that string. *)
Theorem get_otp_reaches_every_code : forall otp,
  (forall i c, String.get i otp = Some c -> is_nonzero_digit c = true) ->
  fst (get_otp (Z.of_nat (String.length otp)) (mkEntropy (draws_for otp) 0))
  = Ok otp.
Proof.
  intros otp H. unfold get_otp. rewrite Nat2Z.id.
  rewrite join_choices_of_draws; [reflexivity|].
  intros i c Hi. split; [exact (H i c Hi)|].
  unfold draws_for. cbn [Nat.add]. now rewrite Hi.
Qed.

Lemma get_otp_reaches_every_code_witness :
  fst (get_otp (Z.of_nat (String.length "9119"))
         (mkEntropy (draws_for "9119") 0))
  = Ok "9119".
Proof.
  apply (get_otp_reaches_every_code "9119").
  intros i c.
  do 4 (destruct i as [|i]; [intros [= <-]; reflexivity|]).
  discriminate.
Defined.

Lemma join_choices_add : forall n m os,
  join_choices (n + m) os
  = match join_choices n os with
    | (Ok s1, os1) =>
        match join_choices m os1 with
        | (Ok s2, os2) => (Ok (s1 ++ s2)%string, os2)
        | (Raise e, os2) => (Raise e, os2)
        end
    | (Raise e, os1) => (Raise e, os1)
    end.
Proof.
  induction n as [|n IH]; intros m os; cbn [Nat.add join_choices].
  - destruct (join_choices m os) as [[s2|e] os2]; reflexivity.
  - destruct (choice OTP_ALPHABET os) as [[c|e] os']; [|reflexivity].
    rewrite IH.
    destruct (join_choices n os') as [[s1|e] os1]; [|reflexivity].
    destruct (join_choices m os1) as [[s2|e] os2]; reflexivity.
Qed.

(** X7: a code of [a + b] digits is a code of [a] digits followed by
    the code of [b] digits drawn next: generating in two steps from the
    same source gives the same characters as generating at once. *)
Theorem get_otp_concatenates : forall a b os,
  0 <= a -> 0 <= b ->
  exists s1 os1 s2 os2,
    get_otp a os = (Ok s1, os1)
    /\ get_otp b os1 = (Ok s2, os2)
    /\ get_otp (a + b) os = (Ok (s1 ++ s2)%string, os2).
Proof.
  intros a b os Ha Hb. unfold get_otp.
  rewrite Z2Nat.inj_add by assumption. rewrite join_choices_add.
  destruct (join_choices_spec (Z.to_nat a) os) as (s1 & H1 & _).
  rewrite H1.
  destruct (join_choices_spec (Z.to_nat b)
              (mkEntropy (stream os) (drawn os + Z.to_nat a)))
    as (s2 & H2 & _).
  rewrite H2.
  exists s1, (mkEntropy (stream os) (drawn os + Z.to_nat a)), s2,
    (mkEntropy (stream os) (drawn os + Z.to_nat a + Z.to_nat b)).
  split; [reflexivity|]. split; [exact H2|reflexivity].
Qed.

Lemma get_otp_concatenates_witness :
  exists s1 os1 s2 os2,
    get_otp 2 sample_entropy = (Ok s1, os1)
    /\ get_otp 2 os1 = (Ok s2, os2)
    /\ get_otp (2 + 2) sample_entropy = (Ok (s1 ++ s2)%string, os2).
Proof.
  apply (get_otp_concatenates 2 2 sample_entropy); lia.
Defined.

(* ------------------------------------------------------------------ *)
(** ** The birthday handler over a sequence of requests *)

(** X8: on a user without birthday, a sequence of birthday requests
    stores the birthday of the first body the serializer accepts and
    changes nothing else of the user; when no body is accepted the user
    is unchanged. *)
Theorem first_accepted_birthday_wins :
  forall (UserBirthdaySerializer : json -> outcome date)
         (UserSerializer : User -> json) bodies u,
  birthday u = None ->
  UserBirthdayAPIView.posts UserBirthdaySerializer UserSerializer bodies u
  = match first_accepted UserBirthdaySerializer bodies with
    | Some d => set_birthday u d
    | None => u
    end.
Proof.
  intros validate repr bodies.
  induction bodies as [|b bodies IH]; intros u Hnone;
    cbn [UserBirthdayAPIView.posts first_accepted].
  - reflexivity.
  - unfold UserBirthdayAPIView.post at 1. rewrite Hnone.
    destruct (validate b) as [d|e]; cbn [snd].
    + apply posts_birthday_registered with (d := d). reflexivity.
    + now apply IH.
Qed.

Lemma first_accepted_birthday_wins_witness :
  UserBirthdayAPIView.posts sample_birthday_serializer sample_user_serializer
    [JNull; JObj []; birthday_body; JObj [("birthday", JStr "2001-01-01")]]
    alice
  = set_birthday alice (mkDate 1990 5 17).
Proof.
  apply (first_accepted_birthday_wins sample_birthday_serializer
           sample_user_serializer
           [JNull; JObj []; birthday_body;
            JObj [("birthday", JStr "2001-01-01")]] alice).
  reflexivity.
Defined.

(* ------------------------------------------------------------------ *)
(** ** The phone handlers: which errors pass *)

(** X9: in the phone handlers a body the serializer rejects fails with
    the serializer's error before the service is called, the session
    untouched; an error of the service leaves [patch] as it is, and
    leaves [post] as it is unless it is a delivery error. *)
Theorem phone_handlers_pass_errors :
  forall (UserPhoneSerializer : json -> outcome (Z * Z))
         (UserPhoneVerificationSerializer : json -> outcome (string * (Z * Z)))
         (UserSerializer : User -> json)
         (service : SmsVerificationService) body s,
  (forall e,
     UserPhoneSerializer body = Raise e ->
     UserPhoneUpdateView.post UserPhoneSerializer service body s
     = (Raise e, s))
  /\ (forall c n e s',
        UserPhoneSerializer body = Ok (c, n) ->
        request_verification service c n s = (Raise e, s') ->
        (forall cause, e <> SmsDeliveryError cause) ->
        UserPhoneUpdateView.post UserPhoneSerializer service body s
        = (Raise e, s'))
  /\ (forall e,
        UserPhoneVerificationSerializer body = Raise e ->
        UserPhoneUpdateView.patch UserPhoneVerificationSerializer
          UserSerializer service body s
        = (Raise e, s))
  /\ (forall otp c n e s',
        UserPhoneVerificationSerializer body = Ok (otp, (c, n)) ->
        verify_code service otp c n s = (Raise e, s') ->
        UserPhoneUpdateView.patch UserPhoneVerificationSerializer
          UserSerializer service body s
        = (Raise e, s')).
Proof.
  intros validate validate' repr service body s.
  split; [|split; [|split]].
  - intros e V. unfold UserPhoneUpdateView.post. now rewrite V.
  - intros c n e s' V Hsvc Hother.
    unfold UserPhoneUpdateView.post. rewrite V, Hsvc.
    destruct e; try reflexivity. now destruct (Hother detail).
  - intros e V. unfold UserPhoneUpdateView.patch. now rewrite V.
  - intros otp c n e s' V Hsvc.
    unfold UserPhoneUpdateView.patch. now rewrite V, Hsvc.
Qed.

Lemma phone_handlers_pass_errors_witness :
  UserPhoneUpdateView.post sample_phone_serializer
    (SmsVerification.service (sample_env gateway_up 1000))
    JNull (mkSession alice None)
  = (Raise ValidationError, mkSession alice None)
  /\ UserPhoneUpdateView.patch sample_verification_serializer
       sample_user_serializer
       (SmsVerification.service (sample_env gateway_up 1100))
       (verification_body "1111") requested_session
     = (Raise CodeMismatch, requested_session).
Proof.
  destruct (phone_handlers_pass_errors sample_phone_serializer
              sample_verification_serializer sample_user_serializer
              (SmsVerification.service (sample_env gateway_up 1000))
              JNull (mkSession alice None)) as (Hpost & _ & _ & _).
  destruct (phone_handlers_pass_errors sample_phone_serializer
              sample_verification_serializer sample_user_serializer
              (SmsVerification.service (sample_env gateway_up 1100))
              (verification_body "1111") requested_session)
    as (_ & _ & _ & Hpatch).
  split.
  - apply Hpost. reflexivity.
  - apply (Hpatch "1111" 7 9161); reflexivity.
Defined.

(* ------------------------------------------------------------------ *)
(** ** The avatar handler *)

(** X10: the avatar handler validates with [partial=True] and then
    reads [validated_data['avatar_url']] unconditionally: when the
    validated data has no [avatar_url], the handler raises [KeyError]
    and the user is unchanged. *)
Theorem avatar_upload_without_url :
  forall (UserAvatarSerializer : json -> outcome (list (string * json)))
         (UserSerializer : AvatarUser -> json) body validated_data u,
  UserAvatarSerializer body = Ok validated_data ->
  assoc "avatar_url" validated_data = None ->
  UserAvatarUpdateView.post UserAvatarSerializer UserSerializer body u
  = (Raise (KeyError "avatar_url"), u).
Proof.
  intros validate repr body validated_data u V Hnone.
  unfold UserAvatarUpdateView.post. rewrite V. cbn [py_getitem].
  now rewrite Hnone.
Qed.

Lemma avatar_upload_without_url_witness :
  UserAvatarUpdateView.post sample_avatar_serializer
    sample_avatar_user_serializer (JObj [("name", JStr "Alice")])
    (mkAvatarUser alice JNull)
  = (Raise (KeyError "avatar_url"), mkAvatarUser alice JNull).
Proof.
  apply (avatar_upload_without_url sample_avatar_serializer
           sample_avatar_user_serializer (JObj [("name", JStr "Alice")]) []);
    reflexivity.
Defined.

(** X11: after any sequence of avatar uploads the user's [avatar_url]
    is the one of the last upload that carried one (the previous value
    when none did), and no other field of the user has changed. *)
Theorem last_avatar_upload_wins :
  forall (UserAvatarSerializer : json -> outcome (list (string * json)))
         (UserSerializer : AvatarUser -> json) bodies u,
  UserAvatarUpdateView.posts UserAvatarSerializer UserSerializer bodies u
  = mkAvatarUser (profile u)
      (last_uploaded UserAvatarSerializer bodies (avatar_url u)).
Proof.
  intros validate repr bodies.
  induction bodies as [|b bodies IH]; intros u;
    cbn [UserAvatarUpdateView.posts last_uploaded].
  - now destruct u.
  - rewrite IH. unfold UserAvatarUpdateView.post.
    destruct (validate b) as [validated_data|e]; [|reflexivity].
    cbn [py_getitem].
    destruct (assoc "avatar_url" validated_data); reflexivity.
Qed.

(* ------------------------------------------------------------------ *)
(** ** The Phone table over a sequence of inserts *)

Lemma id_below_next_id : forall table row,
  In row table -> Migration0001.id row < Migration0001.next_id table.
Proof.
  unfold Migration0001.next_id.
  induction table as [|r table IH]; intros row Hin; [destruct Hin|].
  cbn [fold_right]. destruct Hin as [->|Hin].
  - lia.
  - specialize (IH row Hin). lia.
Qed.

Lemma create_keeps_keys : forall c n table,
  NoDup (map Migration0001.id table) ->
  NoDup (map Migration0001.id (snd (Migration0001.create c n table)))
  /\ map (fun r => (Migration0001.code r, Migration0001.phone r))
       (snd (Migration0001.create c n table))
     = map (fun r => (Migration0001.code r, Migration0001.phone r)) table
       ++ (if storable (c, n) then [(c, n)] else []).
Proof.
  intros c n table Hnodup. unfold Migration0001.create, storable.
  cbn [fst snd].
  destruct (Migration0001.PositiveSmallIntegerField c
            && Migration0001.PositiveSmallIntegerField n); cbn [snd].
  - split.
    + rewrite map_app. cbn [map Migration0001.id].
      apply NoDup_app; [exact Hnodup|repeat constructor; intros []|].
      intros i Hi [<-|[]]. apply in_map_iff in Hi as (row & Hid & Hrow).
      pose proof (id_below_next_id table row Hrow). lia.
    + now rewrite map_app.
  - split; [exact Hnodup|]. now rewrite app_nil_r.
Qed.



(* ------------------------------------------------------------------ *)
(** ** When the webhook acknowledges *)

(** X13: on a table with at most one row per chat, the webhook handler
    acknowledges an update exactly when the update has no [message] or
    its message can be read in full (chat identifier, text, time); in
    every other case it raises. *)
Theorem webhook_acknowledges_exactly : forall update table,
  unique_chats table ->
  (fst (TelegramWebhookAPIView.post update table) = Ok status_ok
   <-> py_in "message" update = Ok false
       \/ exists c t d, event update = Some (c, t, d)).
Proof.
  intros update table U. split.
  - intros Hok. destruct (event update) as [[[c t] d]|] eqn:E.
    + right. now exists c, t, d.
    + left. unfold event in E. unfold TelegramWebhookAPIView.post in Hok.
      destruct (py_in "message" update) as [[|]|e]; try discriminate.
      * destruct (extract update) as [x|e]; discriminate.
      * reflexivity.
  - intros [Hno|(c & t & d & E)].
    + unfold TelegramWebhookAPIView.post. now rewrite Hno.
    + rewrite (post_with_event _ _ _ _ _ E). cbn [fst].
      destruct (update_or_create_spec c t d table (U c)) as [-> _].
      reflexivity.
Qed.

Lemma webhook_acknowledges_exactly_witness :
  fst (TelegramWebhookAPIView.post update_chat_7 []) = Ok status_ok
  <-> py_in "message" update_chat_7 = Ok false
      \/ exists c t d, event update_chat_7 = Some (c, t, d).
Proof.
  apply (webhook_acknowledges_exactly update_chat_7 []).
  intros c. simpl. lia.
Defined.
